(** * VisionFrontEnd: the abstract VIO front end

    A shallow embedding of [include/kimera-vio/frontend/VisionFrontEnd.h].

    The class template [VisionFrontEnd<InputT, OutputT>] owns a handful of
    fields and talks to collaborators that live behind pointers (the IMU
    front end, the tracker, glog).  The fields are a record that every
    member function threads explicitly; every collaborator call is a node of
    a call tree ([Prog]) whose answer is supplied by the environment, so a
    statement proved for every environment holds whatever the collaborators
    (RANSAC included) compute.  The collaborators hold no reference to the
    front end, so a call leaves its fields alone.  Process termination
    (glog's CHECK and LOG(FATAL)) and undefined behaviour (dereferencing a
    null [unique_ptr], signed overflow) end a call tree with [Abort].
    Threads are not modelled: the atomic [frontend_state_] is the value a
    load returns. *)

From Stdlib Require Import ZArith List String Bool Lia QArith Qabs.
Import ListNotations.
Local Open Scope string_scope.
Local Open Scope Z_scope.

Module VIO.

(** ** Types the header takes from elsewhere

    gtsam's [Rot3] and [Pose3], and the front-end definitions of Kimera whose
    declarations the header only includes, are an interface.  The header
    uses exactly: the identity rotation, [Rot3::equals] (gtsam compares
    with a tolerance), [TrackingStatus::VALID], [==] on tracking statuses,
    [TrackerStatusSummary::asString] and the default-constructed
    [TrackerStatusSummary]. *)
Class Externals : Type := {
  Rot3 : Type;
  Pose3 : Type;
  Vector3 : Type;
  Rot3_identity : Rot3;
  Rot3_equals : Rot3 -> Rot3 -> bool;
  Rot3_identity_equals : Rot3_equals Rot3_identity Rot3_identity = true;
  Pose3_distinct : exists p q : Pose3, p <> q;
  ImuParams : Type;
  ImuBias : Type;
  GtsamImuParams : Type;
  DebugTrackerInfo : Type;
  TrackingStatus : Type;
  VALID : TrackingStatus;
  TrackingStatus_eqb : TrackingStatus -> TrackingStatus -> bool;
  TrackingStatus_eqb_spec :
    forall a b, TrackingStatus_eqb a b = true <-> a = b;
  asString : TrackingStatus -> string;
  (** members of [TrackerStatusSummary] other than the two mono fields *)
  SummaryRest : Type;
  default_kfTrackingStatus_mono : TrackingStatus;
  default_lkf_T_k_mono : Pose3;
  default_SummaryRest : SummaryRest
}.

(** The template parameters.  [timestamp] is what the handlers store in
    [last_keyframe_timestamp_] when an input becomes a keyframe. *)
Class Payload : Type := {
  InputT : Type;
  OutputT : Type;
  timestamp : InputT -> Z
}.

(** A heap address: what a non-null pointer holds. *)
Definition Addr := positive.

(** [Timestamp] is a 64-bit integer, the counters are [int]. *)
Definition Timestamp := Z.
Definition INT_MAX : Z := 2147483647.

(** [enum class FrontendState { Bootstrap = 0u, Nominal = 1u }], kept as the
    integer an [std::atomic<FrontendState>] stores: a scoped enumeration can
    hold every value of its underlying type. *)
Definition FrontendState := Z.
Definition Bootstrap : FrontendState := 0.
Definition Nominal : FrontendState := 1.

Section Model.
Context {ext : Externals} {io : Payload}.

(** [using TrackingStatusPose = std::pair<TrackingStatus, gtsam::Pose3>] *)
Definition TrackingStatusPose : Type := TrackingStatus * Pose3.

Record TrackerStatusSummary : Type := {
  kfTrackingStatus_mono_ : TrackingStatus;
  lkf_T_k_mono_ : Pose3;
  summary_rest_ : SummaryRest
}.

Definition TrackerStatusSummary_default : TrackerStatusSummary :=
  {| kfTrackingStatus_mono_ := default_kfTrackingStatus_mono;
     lkf_T_k_mono_ := default_lkf_T_k_mono;
     summary_rest_ := default_SummaryRest |}.

(** The data members, lines 185-205.  A [unique_ptr] or raw pointer is
    [None] when null. *)
Record VisionFrontEnd : Type := {
  frontend_state_ : FrontendState;
  frame_count_ : Z;
  keyframe_count_ : Z;
  last_keyframe_timestamp_ : Timestamp;
  imu_frontend_ : option Addr;
  tracker_ : option Addr;
  tracker_status_summary_ : TrackerStatusSummary;
  display_queue_ : option Addr;
  logger_ : option Addr
}.

Definition set_frontend_state_ (v : FrontendState) (this : VisionFrontEnd) :=
  {| frontend_state_ := v;
     frame_count_ := frame_count_ this;
     keyframe_count_ := keyframe_count_ this;
     last_keyframe_timestamp_ := last_keyframe_timestamp_ this;
     imu_frontend_ := imu_frontend_ this;
     tracker_ := tracker_ this;
     tracker_status_summary_ := tracker_status_summary_ this;
     display_queue_ := display_queue_ this;
     logger_ := logger_ this |}.

Definition set_frame_count_ (v : Z) (this : VisionFrontEnd) :=
  {| frontend_state_ := frontend_state_ this;
     frame_count_ := v;
     keyframe_count_ := keyframe_count_ this;
     last_keyframe_timestamp_ := last_keyframe_timestamp_ this;
     imu_frontend_ := imu_frontend_ this;
     tracker_ := tracker_ this;
     tracker_status_summary_ := tracker_status_summary_ this;
     display_queue_ := display_queue_ this;
     logger_ := logger_ this |}.

Definition set_keyframe_count_ (v : Z) (this : VisionFrontEnd) :=
  {| frontend_state_ := frontend_state_ this;
     frame_count_ := frame_count_ this;
     keyframe_count_ := v;
     last_keyframe_timestamp_ := last_keyframe_timestamp_ this;
     imu_frontend_ := imu_frontend_ this;
     tracker_ := tracker_ this;
     tracker_status_summary_ := tracker_status_summary_ this;
     display_queue_ := display_queue_ this;
     logger_ := logger_ this |}.

Definition set_last_keyframe_timestamp_ (v : Timestamp) (this : VisionFrontEnd) :=
  {| frontend_state_ := frontend_state_ this;
     frame_count_ := frame_count_ this;
     keyframe_count_ := keyframe_count_ this;
     last_keyframe_timestamp_ := v;
     imu_frontend_ := imu_frontend_ this;
     tracker_ := tracker_ this;
     tracker_status_summary_ := tracker_status_summary_ this;
     display_queue_ := display_queue_ this;
     logger_ := logger_ this |}.

Definition set_tracker_ (v : option Addr) (this : VisionFrontEnd) :=
  {| frontend_state_ := frontend_state_ this;
     frame_count_ := frame_count_ this;
     keyframe_count_ := keyframe_count_ this;
     last_keyframe_timestamp_ := last_keyframe_timestamp_ this;
     imu_frontend_ := imu_frontend_ this;
     tracker_ := v;
     tracker_status_summary_ := tracker_status_summary_ this;
     display_queue_ := display_queue_ this;
     logger_ := logger_ this |}.

Definition set_tracker_status_summary_ (v : TrackerStatusSummary)
    (this : VisionFrontEnd) :=
  {| frontend_state_ := frontend_state_ this;
     frame_count_ := frame_count_ this;
     keyframe_count_ := keyframe_count_ this;
     last_keyframe_timestamp_ := last_keyframe_timestamp_ this;
     imu_frontend_ := imu_frontend_ this;
     tracker_ := tracker_ this;
     tracker_status_summary_ := v;
     display_queue_ := display_queue_ this;
     logger_ := logger_ this |}.

(** [tracker_status_summary_.kfTrackingStatus_mono_ = s] *)
Definition assign_kfTrackingStatus_mono_ (s : TrackingStatus)
    (this : VisionFrontEnd) : VisionFrontEnd :=
  set_tracker_status_summary_
    {| kfTrackingStatus_mono_ := s;
       lkf_T_k_mono_ := lkf_T_k_mono_ (tracker_status_summary_ this);
       summary_rest_ := summary_rest_ (tracker_status_summary_ this) |} this.

(** [tracker_status_summary_.lkf_T_k_mono_ = p] *)
Definition assign_lkf_T_k_mono_ (p : Pose3) (this : VisionFrontEnd)
    : VisionFrontEnd :=
  set_tracker_status_summary_
    {| kfTrackingStatus_mono_ :=
         kfTrackingStatus_mono_ (tracker_status_summary_ this);
       lkf_T_k_mono_ := p;
       summary_rest_ := summary_rest_ (tracker_status_summary_ this) |} this.

(** ** Collaborator calls

    One constructor per member function (or data member read) of an object
    the front end reaches through a pointer, and per glog query; the index
    is the type of the answer.  [self] is the object called. *)
Inductive Call : Type -> Type :=
| make_unique_ImuFrontEnd (imu_params : ImuParams)
    (imu_initial_bias : ImuBias) : Call Addr
| make_unique_FrontendLogger : Call Addr
| ImuFrontEnd_updateBias (self : Addr) (imu_bias : ImuBias) : Call unit
| ImuFrontEnd_resetIntegrationWithCachedBias (self : Addr) : Call unit
| ImuFrontEnd_getCurrentImuBias (self : Addr) : Call ImuBias
| ImuFrontEnd_getGtsamImuParams (self : Addr) : Call GtsamImuParams
| ImuFrontEnd_resetPreintegrationGravity (self : Addr)
    (reset_value : Vector3) : Call unit
| ImuFrontEnd_getPreintegrationGravity (self : Addr) : Call Vector3
| Tracker_ransac_use_2point_mono_ (self : Addr) : Call bool
| Tracker_debug_info_ (self : Addr) : Call DebugTrackerInfo
| Tracker_geometricOutlierRejectionMonoGivenRotation (self : Addr)
    (frame_lkf frame_k : option Addr) (R : Rot3)
    (stereo_camera : option Addr) : Call TrackingStatusPose
| Tracker_geometricOutlierRejectionMono (self : Addr)
    (frame_lkf frame_k : option Addr) : Call TrackingStatusPose
| LOG_INFO (msg : string) : Call unit
| VLOG_IS_ON (level : Z) : Call bool
  (** The remaining calls are not made by the header: they are what the
      constructor and the handlers of a derived class ask of their
      surroundings (the tracker, the initialisation, feature tracking,
      keyframe selection and the assembly of an output). *)
| make_unique_Tracker : Call Addr
| Derived_tryInitialize (input : InputT) : Call (option OutputT)
| Derived_trackFeatures (input : InputT)
    : Call (Rot3 * option Addr * option Addr)
| Derived_isKeyframe (input : InputT) (status : TrackingStatus) : Call bool
| Derived_makeOutput (input : InputT) (summary : TrackerStatusSummary)
    : Call OutputT.

(** How a call tree ends without returning. *)
Inductive Stop : Type :=
| CheckFailed (what : string)       (* glog CHECK: logs, then aborts *)
| LogFatal (msg : string)           (* glog LOG(FATAL): logs, then aborts *)
| NullDereference (member : string) (* undefined behaviour *)
| SignedOverflow (member : string). (* undefined behaviour *)

Inductive Prog (A : Type) : Type :=
| Ret (a : A)
| Abort (s : Stop)
| Do {X : Type} (c : Call X) (k : X -> Prog A).

Arguments Ret {A} a.
Arguments Abort {A} s.
Arguments Do {A X} c k.

Fixpoint bind {A B : Type} (p : Prog A) (f : A -> Prog B) : Prog B :=
  match p with
  | Ret a => f a
  | Abort s => Abort s
  | Do c k => Do c (fun x => bind (k x) f)
  end.

Definition call {X : Type} (c : Call X) : Prog X := Do c Ret.

End Model.

Arguments Ret {ext io A} a.
Arguments Abort {ext io A} s.
Arguments Do {ext io A X} c k.

Declare Scope prog_scope.
Delimit Scope prog_scope with prog.
Notation "x <- p ;; q" := (bind p (fun x => q))
  (at level 61, p at next level, right associativity) : prog_scope.
Notation "' pat <- p ;; q" := (bind p (fun x => match x with pat => q end))
  (at level 61, pat pattern, p at next level, right associativity) : prog_scope.
Notation "p ;; q" := (bind p (fun _ => q))
  (at level 61, right associativity) : prog_scope.

Local Open Scope prog_scope.

Section Members.
Context {ext : Externals} {io : Payload}.

(** A member function: the call tree it unfolds to from the fields of
    [this], returning its result and the fields afterwards. *)
Definition M (A : Type) : Type := VisionFrontEnd -> Prog (A * VisionFrontEnd).

(** [p->...] through a pointer that may be null. *)
Definition deref (member : string) (p : option Addr) : Prog Addr :=
  match p with
  | Some a => Ret a
  | None => Abort (NullDereference member)
  end.

(** glog's [CHECK_NOTNULL(p)]. *)
Definition CHECK_NOTNULL (what : string) (p : option Addr) : Prog Addr :=
  match p with
  | Some a => Ret a
  | None => Abort (CheckFailed what)
  end.

(** The constructor, lines 48-63. *)
Definition VisionFrontEnd_constructor (imu_params : ImuParams)
    (imu_initial_bias : ImuBias) (display_queue : option Addr)
    (log_output : bool) : Prog VisionFrontEnd :=
  imu <- call (make_unique_ImuFrontEnd imu_params imu_initial_bias) ;;
  logger <- (if log_output
             then l <- call make_unique_FrontendLogger ;; Ret (Some l)
             else Ret None) ;;
  Ret {| frontend_state_ := Bootstrap;
         frame_count_ := 0;
         keyframe_count_ := 0;
         last_keyframe_timestamp_ := 0;
         imu_frontend_ := Some imu;
         tracker_ := None;
         tracker_status_summary_ := TrackerStatusSummary_default;
         display_queue_ := display_queue;
         logger_ := logger |}.

(** The two pure virtual member functions, lines 133-135: what a derived
    class supplies.  They are members, so they may write every field. *)
Class Handlers : Type := {
  bootstrapSpin : InputT -> M (option OutputT);
  nominalSpin : InputT -> M (option OutputT)
}.

(** Lines 70-80. *)
Definition spinOnce {h : Handlers} (input : InputT) : M (option OutputT) :=
  fun this =>
    if frontend_state_ this =? Bootstrap then bootstrapSpin input this
    else if frontend_state_ this =? Nominal then nominalSpin input this
    else Abort (LogFatal "Unrecognized frontend state.").

(** Lines 85-87. *)
Definition updateImuBias (imu_bias : ImuBias) : M unit := fun this =>
  imu <- deref "imu_frontend_" (imu_frontend_ this) ;;
  call (ImuFrontEnd_updateBias imu imu_bias) ;;
  Ret (tt, this).

(** Lines 94-96. *)
Definition isInitialized : M bool := fun this =>
  Ret (negb (frontend_state_ this =? Bootstrap), this).

(** Lines 101-103. *)
Definition getCurrentImuBias : M ImuBias := fun this =>
  imu <- deref "imu_frontend_" (imu_frontend_ this) ;;
  b <- call (ImuFrontEnd_getCurrentImuBias imu) ;;
  Ret (b, this).

(** Lines 108-111. *)
Definition updateAndResetImuBias (imu_bias : ImuBias) : M unit := fun this =>
  imu <- deref "imu_frontend_" (imu_frontend_ this) ;;
  call (ImuFrontEnd_updateBias imu imu_bias) ;;
  call (ImuFrontEnd_resetIntegrationWithCachedBias imu) ;;
  Ret (tt, this).

(** Lines 115-117. *)
Definition getImuFrontEndParams : M GtsamImuParams := fun this =>
  imu <- deref "imu_frontend_" (imu_frontend_ this) ;;
  p <- call (ImuFrontEnd_getGtsamImuParams imu) ;;
  Ret (p, this).

(** Lines 120-124, a static member. *)
Definition printTrackingStatus (status : TrackingStatus) (type : string)
    : Prog unit :=
  call (LOG_INFO ("Status " ++ type ++ ": " ++ asString status)%string).

(** Lines 128-130. *)
Definition getTrackerInfo : M DebugTrackerInfo := fun this =>
  tracker <- deref "tracker_" (tracker_ this) ;;
  info <- call (Tracker_debug_info_ tracker) ;;
  Ret (info, this).

(** Lines 141-143. *)
Definition resetGravity (reset_value : Vector3) : M unit := fun this =>
  imu <- deref "imu_frontend_" (imu_frontend_ this) ;;
  call (ImuFrontEnd_resetPreintegrationGravity imu reset_value) ;;
  Ret (tt, this).

(** Lines 149-151. *)
Definition getGravity : M Vector3 := fun this =>
  imu <- deref "imu_frontend_" (imu_frontend_ this) ;;
  g <- call (ImuFrontEnd_getPreintegrationGravity imu) ;;
  Ret (g, this).

(** The test of line 159-160: 2-point RANSAC or not. *)
Definition use_2point (ransac_use_2point_mono_ : bool)
    (keyframe_R_cur_frame : Rot3) : bool :=
  ransac_use_2point_mono_
  && negb (Rot3_equals keyframe_R_cur_frame Rot3_identity).

(** Lines 153-178.  [status_pose_mono] is the out-parameter: the address
    passed, and the result is what [*status_pose_mono] holds on return.
    [stereo_camera] defaults to null. *)
Definition outlierRejectionMono (keyframe_R_cur_frame : Rot3)
    (frame_lkf frame_k : option Addr) (status_pose_mono : option Addr)
    (stereo_camera : option Addr) : M TrackingStatusPose := fun this =>
  CHECK_NOTNULL "status_pose_mono" status_pose_mono ;;
  tracker <- deref "tracker_" (tracker_ this) ;;
  flag <- call (Tracker_ransac_use_2point_mono_ tracker) ;;
  pointee <-
    (if use_2point flag keyframe_R_cur_frame
     then call (Tracker_geometricOutlierRejectionMonoGivenRotation tracker
                  frame_lkf frame_k keyframe_R_cur_frame stereo_camera)
     else call (Tracker_geometricOutlierRejectionMono tracker
                  frame_lkf frame_k)) ;;
  let this1 := assign_kfTrackingStatus_mono_ (fst pointee) this in
  verbose <- call (VLOG_IS_ON 2) ;;
  (if verbose
   then printTrackingStatus
          (kfTrackingStatus_mono_ (tracker_status_summary_ this1)) "mono"
   else Ret tt) ;;
  let this2 := if TrackingStatus_eqb (fst pointee) VALID
               then assign_lkf_T_k_mono_ (snd pointee) this1
               else this1 in
  Ret (pointee, this2).

(** The member functions the base class itself implements, with their
    arguments; [perform] runs one and keeps the fields. *)
Inductive BaseOp : Type :=
| op_updateImuBias (imu_bias : ImuBias)
| op_isInitialized
| op_getCurrentImuBias
| op_updateAndResetImuBias (imu_bias : ImuBias)
| op_getImuFrontEndParams
| op_printTrackingStatus (status : TrackingStatus) (type : string)
| op_getTrackerInfo
| op_resetGravity (reset_value : Vector3)
| op_getGravity
| op_outlierRejectionMono (keyframe_R_cur_frame : Rot3)
    (frame_lkf frame_k status_pose_mono stereo_camera : option Addr).

Definition keep_fields {A : Type} (m : M A) : VisionFrontEnd -> Prog VisionFrontEnd :=
  fun this => r <- m this ;; Ret (snd r).

Definition perform (op : BaseOp) : VisionFrontEnd -> Prog VisionFrontEnd :=
  match op with
  | op_updateImuBias b => keep_fields (updateImuBias b)
  | op_isInitialized => keep_fields isInitialized
  | op_getCurrentImuBias => keep_fields getCurrentImuBias
  | op_updateAndResetImuBias b => keep_fields (updateAndResetImuBias b)
  | op_getImuFrontEndParams => keep_fields getImuFrontEndParams
  | op_printTrackingStatus status type =>
      fun this => printTrackingStatus status type ;; Ret this
  | op_getTrackerInfo => keep_fields getTrackerInfo
  | op_resetGravity v => keep_fields (resetGravity v)
  | op_getGravity => keep_fields getGravity
  | op_outlierRejectionMono R lkf k sp cam =>
      keep_fields (outlierRejectionMono R lkf k sp cam)
  end.

(** The pipeline delivers one input at a time; the fields after each call
    are collected. *)
Fixpoint spinMany {h : Handlers} (inputs : list InputT) (this : VisionFrontEnd)
    : Prog (list VisionFrontEnd) :=
  match inputs with
  | [] => Ret []
  | input :: rest =>
      r <- spinOnce input this ;;
      later <- spinMany rest (snd r) ;;
      Ret (snd r :: later)
  end.

(** ** A derived front end

    The header leaves [bootstrapSpin] and [nominalSpin] pure virtual and
    installs no tracker; the classes that derive from it are not among the
    sources at hand.  The three definitions below follow the
    specification's description of them. *)

(** [++n] on an [int]: overflow is undefined behaviour. *)
Definition increment (member : string) (n : Z) : Prog Z :=
  if n <? INT_MAX then Ret (n + 1) else Abort (SignedOverflow member).

(** Modelled from the spec: the constructor of a derived front end, missing
    from the sources.  The tracker is an exclusively owned sub-object
    created at construction time, after the base-class constructor ran. *)
Definition Derived_constructor (imu_params : ImuParams)
    (imu_initial_bias : ImuBias) (display_queue : option Addr)
    (log_output : bool) : Prog VisionFrontEnd :=
  this <- VisionFrontEnd_constructor imu_params imu_initial_bias
            display_queue log_output ;;
  tracker <- call make_unique_Tracker ;;
  Ret (set_tracker_ (Some tracker) this).

(** Modelled from the spec: the bootstrap handler, missing from the sources.
    Every input is counted.  The handler tries to initialise (first valid
    keyframe, gravity alignment); until that succeeds it returns the not yet
    initialised result (a null output) and the state remains Bootstrap; when
    it succeeds the input is the first keyframe and the state becomes
    Nominal. *)
Definition modelled_bootstrapSpin (input : InputT) : M (option OutputT) :=
  fun this =>
    n <- increment "frame_count_" (frame_count_ this) ;;
    let this1 := set_frame_count_ n this in
    r <- call (Derived_tryInitialize input) ;;
    match r with
    | None => Ret (None, this1)
    | Some out =>
        kf <- increment "keyframe_count_" (keyframe_count_ this1) ;;
        Ret (Some out,
             set_frontend_state_ Nominal
               (set_last_keyframe_timestamp_ (timestamp input)
                  (set_keyframe_count_ kf this1)))
    end.

(** The address of the handler's local [TrackingStatusPose]. *)
Definition local_status_pose_mono : option Addr := Some 1%positive.

(** Modelled from the spec: the nominal handler, missing from the sources.
    In the specification's order: track features from the previous keyframe,
    run outlier rejection, update counters, optionally promote the frame to
    a keyframe, and produce the output. *)
Definition modelled_nominalSpin (input : InputT) : M (option OutputT) :=
  fun this =>
    ' (R, frame_lkf, frame_k) <- call (Derived_trackFeatures input) ;;
    r <- outlierRejectionMono R frame_lkf frame_k local_status_pose_mono
           None this ;;
    n <- increment "frame_count_" (frame_count_ (snd r)) ;;
    let this1 := set_frame_count_ n (snd r) in
    promote <- call (Derived_isKeyframe input
                       (kfTrackingStatus_mono_ (tracker_status_summary_ this1))) ;;
    this2 <- (if promote : bool
              then kf <- increment "keyframe_count_" (keyframe_count_ this1) ;;
                   Ret (set_last_keyframe_timestamp_ (timestamp input)
                          (set_keyframe_count_ kf this1))
              else Ret this1) ;;
    out <- call (Derived_makeOutput input (tracker_status_summary_ this2)) ;;
    Ret (Some out, this2).

Definition modelled_handlers : Handlers :=
  {| bootstrapSpin := modelled_bootstrapSpin;
     nominalSpin := modelled_nominalSpin |}.

(** ** Running a call tree

    The environment answers every call from a state of its own, which is
    where the collaborators' objects, the RANSAC random source and the glog
    flags live. *)
Class Environment : Type := {
  World : Type;
  respond : forall X : Type, Call X -> World -> X * World
}.

Inductive Event : Type :=
| Called {X : Type} (c : Call X) (answer : X).

Inductive Outcome (A : Type) : Type :=
| Returned (a : A)
| Stopped (s : Stop).

Arguments Returned {A} a.
Arguments Stopped {A} s.

Record Run {env : Environment} (A : Type) : Type := {
  trace : list Event;
  outcome : Outcome A;
  world_after : World
}.

Arguments trace {env A} r.
Arguments outcome {env A} r.
Arguments world_after {env A} r.

Fixpoint run {env : Environment} {A : Type} (p : Prog A) (w : World) : Run A :=
  match p with
  | Ret a => {| trace := []; outcome := Returned a; world_after := w |}
  | Abort s => {| trace := []; outcome := Stopped s; world_after := w |}
  | Do c k =>
      let a := respond _ c w in
      let r := run (k (fst a)) (snd a) in
      {| trace := Called c (fst a) :: trace r;
         outcome := outcome r;
         world_after := world_after r |}
  end.

(** The two geometric verification kernels of the tracker. *)
Inductive Kernel : Type :=
| Constrained      (* geometricOutlierRejectionMonoGivenRotation, 2-point *)
| Unconstrained.   (* geometricOutlierRejectionMono, 5-point *)

(** The kernel an event ran, with the pair it returned. *)
Definition kernel_run (e : Event) : option (Kernel * TrackingStatusPose) :=
  match e with
  | Called c x =>
      match c in Call X return X -> option (Kernel * TrackingStatusPose) with
      | Tracker_geometricOutlierRejectionMonoGivenRotation _ _ _ _ _ =>
          fun r => Some (Constrained, r)
      | Tracker_geometricOutlierRejectionMono _ _ _ =>
          fun r => Some (Unconstrained, r)
      | _ => fun _ => None
      end x
  end.

Fixpoint kernels_run (tr : list Event) : list (Kernel * TrackingStatusPose) :=
  match tr with
  | [] => []
  | e :: rest =>
      match kernel_run e with
      | Some k => k :: kernels_run rest
      | None => kernels_run rest
      end
  end.

(** The kernel lines 159-168 select. *)
Definition selected_kernel (ransac_use_2point_mono_ : bool)
    (keyframe_R_cur_frame : Rot3) : Kernel :=
  if use_2point ransac_use_2point_mono_ keyframe_R_cur_frame
  then Constrained else Unconstrained.

(** The call that runs kernel [K] with the arguments of
    [outlierRejectionMono]. *)
Definition kernel_call (K : Kernel) (tracker : Addr)
    (frame_lkf frame_k : option Addr) (keyframe_R_cur_frame : Rot3)
    (stereo_camera : option Addr) : Call TrackingStatusPose :=
  match K with
  | Constrained =>
      Tracker_geometricOutlierRejectionMonoGivenRotation tracker
        frame_lkf frame_k keyframe_R_cur_frame stereo_camera
  | Unconstrained =>
      Tracker_geometricOutlierRejectionMono tracker frame_lkf frame_k
  end.

(** What lines 171-173 log. *)
Definition status_log (verbose : bool) (status : TrackingStatus)
    : list Event :=
  if verbose
  then [Called (LOG_INFO ("Status mono: " ++ asString status)%string) tt]
  else [].

(** The mono pose the summary holds after [outlierRejectionMono], had it
    held [stored] before the call. *)
Definition mono_pose_after {env : Environment} (keyframe_R_cur_frame : Rot3)
    (frame_lkf frame_k status_pose_mono stereo_camera : option Addr)
    (this : VisionFrontEnd) (w : World) (stored : Pose3) : option Pose3 :=
  match outcome (run (outlierRejectionMono keyframe_R_cur_frame frame_lkf
                        frame_k status_pose_mono stereo_camera
                        (assign_lkf_T_k_mono_ stored this)) w) with
  | Returned r => Some (lkf_T_k_mono_ (tracker_status_summary_ (snd r)))
  | Stopped _ => None
  end.

(** A derived front end is constructed, then fed [inputs] one by one. *)
Definition session (imu_params : ImuParams) (imu_initial_bias : ImuBias)
    (display_queue : option Addr) (log_output : bool)
    (inputs : list InputT) : Prog (VisionFrontEnd * list VisionFrontEnd) :=
  this <- Derived_constructor imu_params imu_initial_bias display_queue
            log_output ;;
  later <- spinMany (h := modelled_handlers) inputs this ;;
  Ret (this, later).

(** The calls made on the IMU front end, in order. *)
Definition imu_call (e : Event) : bool :=
  match e with
  | Called c _ =>
      match c with
      | ImuFrontEnd_updateBias _ _
      | ImuFrontEnd_resetIntegrationWithCachedBias _
      | ImuFrontEnd_getCurrentImuBias _
      | ImuFrontEnd_getGtsamImuParams _
      | ImuFrontEnd_resetPreintegrationGravity _ _
      | ImuFrontEnd_getPreintegrationGravity _ => true
      | _ => false
      end
  end.

(** The lifecycle states a run of [spinMany] went through, the starting
    one first. *)
Definition lifecycle (start : VisionFrontEnd) (later : list VisionFrontEnd)
    : list FrontendState :=
  map frontend_state_ (start :: later).

(** Bootstrap zero or more times, then Nominal for good. *)
Fixpoint bootstrap_then_nominal (l : list FrontendState) : bool :=
  match l with
  | [] => true
  | s :: rest =>
      if s =? Bootstrap then bootstrap_then_nominal rest
      else forallb (fun s' => s' =? Nominal) l
  end.

(** [frame_count_ >= keyframe_count_ >= 0] *)
Definition counters_ok (this : VisionFrontEnd) : Prop :=
  0 <= keyframe_count_ this <= frame_count_ this.

End Members.

Arguments Returned {A} a.
Arguments Stopped {A} s.
Arguments trace {ext io env A} r.
Arguments outcome {ext io env A} r.
Arguments world_after {ext io env A} r.

(** ** The member functions as a whole *)

Section Coverage.
Context {ext : Externals} {io : Payload}.

(** The destructor, lines 65-67. *)
Definition VisionFrontEnd_destructor : VisionFrontEnd -> Prog unit :=
  fun _ => call (LOG_INFO "VisionFrontEnd destructor called.").

(** Member functions of the base class called one after the other, each on
    the fields the one before left. *)
Fixpoint performAll (ops : list BaseOp) (this : VisionFrontEnd)
    : Prog VisionFrontEnd :=
  match ops with
  | [] => Ret this
  | op :: rest => this1 <- perform op this ;; performAll rest this1
  end.







(** The messages logged at INFO, in order. *)
Fixpoint log_messages (tr : list Event) : list string :=
  match tr with
  | [] => []
  | Called c _ :: rest =>
      match c with
      | LOG_INFO msg => msg :: log_messages rest
      | _ => log_messages rest
      end
  end.



End Coverage.

(** ** A sample instantiation

    Rotations are 3x3 matrices of rationals in row-major order, compared
    entry by entry with gtsam's default tolerance 1e-9; the environment is
    scripted.  It serves to evaluate the model on concrete inputs. *)
Module Sample.

Inductive Status : Type :=
| Status_VALID | Status_LOW_DISPARITY | Status_FEW_MATCHES
| Status_INVALID | Status_DISABLED.

Definition Status_eqb (a b : Status) : bool :=
  match a, b with
  | Status_VALID, Status_VALID
  | Status_LOW_DISPARITY, Status_LOW_DISPARITY
  | Status_FEW_MATCHES, Status_FEW_MATCHES
  | Status_INVALID, Status_INVALID
  | Status_DISABLED, Status_DISABLED => true
  | _, _ => false
  end.

Definition Status_asString (s : Status) : string :=
  match s with
  | Status_VALID => "VALID"
  | Status_LOW_DISPARITY => "LOW_DISPARITY"
  | Status_FEW_MATCHES => "FEW_MATCHES"
  | Status_INVALID => "INVALID"
  | Status_DISABLED => "DISABLED"
  end.

Definition Matrix3 : Type := list Q.
Definition Point3 : Type := (Q * Q * Q)%type.

Definition identity3 : Matrix3 := [1; 0; 0;  0; 1; 0;  0; 0; 1]%Q.

(** A rotation about Z by the angle whose cosine is 3/5. *)
Definition about_Z : Matrix3 :=
  [3 # 5; - (4 # 5); 0;  4 # 5; 3 # 5; 0;  0; 0; 1]%Q.

(** Not the identity matrix, but within the tolerance of it. *)
Definition nearly_identity3 : Matrix3 :=
  [1; - (1 # 10000000000); 0;  1 # 10000000000; 1; 0;  0; 0; 1]%Q.

Fixpoint equal_with_abs_tol (tol : Q) (a b : list Q) : bool :=
  match a, b with
  | [], [] => true
  | x :: a', y :: b' =>
      Qle_bool (Qabs (x - y)) tol && equal_with_abs_tol tol a' b'
  | _, _ => false
  end.

Definition default_tol : Q := 1 # 1000000000.

Definition origin : Point3 := (0, 0, 0)%Q.
Definition identity_pose : Matrix3 * Point3 := (identity3, origin).
Definition moved_pose : Matrix3 * Point3 := (about_Z, (1, 0, 0)%Q).

Definition ext : Externals.
Proof.
  refine {| Rot3 := Matrix3;
            Pose3 := Matrix3 * Point3;
            Vector3 := Point3;
            Rot3_identity := identity3;
            Rot3_equals := equal_with_abs_tol default_tol;
            Rot3_identity_equals := eq_refl;
            Pose3_distinct := _;
            ImuParams := unit;
            ImuBias := Z;
            GtsamImuParams := unit;
            DebugTrackerInfo := Z;
            TrackingStatus := Status;
            VALID := Status_VALID;
            TrackingStatus_eqb := Status_eqb;
            TrackingStatus_eqb_spec := _;
            asString := Status_asString;
            SummaryRest := unit;
            default_kfTrackingStatus_mono := Status_INVALID;
            default_lkf_T_k_mono := identity_pose;
            default_SummaryRest := tt |}.
  - exists identity_pose, moved_pose. discriminate.
  - intros a b. split.
    + destruct a, b; simpl; intros E; try reflexivity; discriminate E.
    + intros ->. destruct b; reflexivity.
Defined.

(** Inputs are timestamps; an output carries the input and the status. *)
Definition io : Payload :=
  {| InputT := Z; OutputT := Z * Status; timestamp := fun t => t |}.

(** The scripted environment: the tracker's configuration flag, glog's
    verbosity, the pairs the kernels are going to return, the number of
    inputs initialisation still fails on, and the next free address. *)
Record Script : Type := {
  ransac_use_2point_mono_ : bool;
  verbosity : Z;
  kernel_results : list (Status * (Matrix3 * Point3));
  inputs_to_initialise : nat;
  next_address : positive
}.

Definition allocate (w : Script) : positive * Script :=
  (next_address w,
   {| ransac_use_2point_mono_ := ransac_use_2point_mono_ w;
      verbosity := verbosity w;
      kernel_results := kernel_results w;
      inputs_to_initialise := inputs_to_initialise w;
      next_address := Pos.succ (next_address w) |}).

Definition next_kernel_result (w : Script)
    : (Status * (Matrix3 * Point3)) * Script :=
  (hd (Status_INVALID, identity_pose) (kernel_results w),
   {| ransac_use_2point_mono_ := ransac_use_2point_mono_ w;
      verbosity := verbosity w;
      kernel_results := tl (kernel_results w);
      inputs_to_initialise := inputs_to_initialise w;
      next_address := next_address w |}).

Definition try_initialise (input : Z) (w : Script)
    : option (Z * Status) * Script :=
  match inputs_to_initialise w with
  | O => (Some (input, Status_VALID), w)
  | S n =>
      (None,
       {| ransac_use_2point_mono_ := ransac_use_2point_mono_ w;
          verbosity := verbosity w;
          kernel_results := kernel_results w;
          inputs_to_initialise := n;
          next_address := next_address w |})
  end.

Definition scripted (X : Type) (c : @Call ext io X) (w : Script) : X * Script :=
  match c in Call X return X * Script with
  | make_unique_ImuFrontEnd _ _ => allocate w
  | make_unique_FrontendLogger => allocate w
  | ImuFrontEnd_updateBias _ _ => (tt, w)
  | ImuFrontEnd_resetIntegrationWithCachedBias _ => (tt, w)
  | ImuFrontEnd_getCurrentImuBias _ => (0, w)
  | ImuFrontEnd_getGtsamImuParams _ => (tt, w)
  | ImuFrontEnd_resetPreintegrationGravity _ _ => (tt, w)
  | ImuFrontEnd_getPreintegrationGravity _ => (origin, w)
  | Tracker_ransac_use_2point_mono_ _ => (ransac_use_2point_mono_ w, w)
  | Tracker_debug_info_ _ => (0, w)
  | Tracker_geometricOutlierRejectionMonoGivenRotation _ _ _ _ _ =>
      next_kernel_result w
  | Tracker_geometricOutlierRejectionMono _ _ _ => next_kernel_result w
  | LOG_INFO _ => (tt, w)
  | VLOG_IS_ON level => (level <=? verbosity w, w)
  | make_unique_Tracker => allocate w
  | Derived_tryInitialize input => try_initialise input w
  | Derived_trackFeatures input =>
      ((about_Z, Some 2%positive, Some 3%positive), w)
  | Derived_isKeyframe input status => (Status_eqb status Status_VALID, w)
  | Derived_makeOutput input summary =>
      ((input, kfTrackingStatus_mono_ summary), w)
  end.

Definition env : @Environment ext io :=
  {| World := Script; respond := scripted |}.

Definition script (flag : bool) (results : list (Status * (Matrix3 * Point3)))
    (wait : nat) : Script :=
  {| ransac_use_2point_mono_ := flag;
     verbosity := 0;
     kernel_results := results;
     inputs_to_initialise := wait;
     next_address := 10 |}.

(** A front end as its constructor leaves it, with and without a tracker. *)
Definition fresh_base : @VisionFrontEnd ext :=
  {| frontend_state_ := Bootstrap;
     frame_count_ := 0;
     keyframe_count_ := 0;
     last_keyframe_timestamp_ := 0;
     imu_frontend_ := Some 10%positive;
     tracker_ := None;
     tracker_status_summary_ := TrackerStatusSummary_default;
     display_queue_ := None;
     logger_ := None |}.

Definition fresh_derived : @VisionFrontEnd ext :=
  set_tracker_ (Some 11%positive) fresh_base.

(** [outlierRejectionMono] on null frames and no stereo camera, against the
    script with the given flag and kernel results. *)
Definition reject (R : Matrix3) (status_pose_mono : option Addr)
    (this : @VisionFrontEnd ext) (flag : bool)
    (results : list (Status * (Matrix3 * Point3)))
    : @Run ext io env (@TrackingStatusPose ext * @VisionFrontEnd ext) :=
  @run ext io env _
    (@outlierRejectionMono ext io R None None status_pose_mono None this)
    (script flag results 0).

(** A script that has glog log at verbosity 2. *)
Definition verbose_script
    (results : list (Status * (Matrix3 * Point3))) : Script :=
  {| ransac_use_2point_mono_ := true;
     verbosity := 2;
     kernel_results := results;
     inputs_to_initialise := 0;
     next_address := 10 |}.

(** Member functions that only relay or read. *)
Definition relays : list (@BaseOp ext) :=
  [@op_updateImuBias ext 7; @op_getCurrentImuBias ext;
   @op_isInitialized ext;
   @op_printTrackingStatus ext Status_INVALID "mono";
   @op_resetGravity ext origin; @op_getGravity ext;
   @op_getImuFrontEndParams ext; @op_updateAndResetImuBias ext 8].

(** Two outlier rejections among other calls. *)
Definition mixed_calls : list (@BaseOp ext) :=
  [@op_updateImuBias ext 7;
   @op_outlierRejectionMono ext about_Z None None (Some 5%positive) None;
   @op_getCurrentImuBias ext;
   @op_outlierRejectionMono ext identity3 None None (Some 5%positive) None;
   @op_getTrackerInfo ext].

End Sample.

(** * Properties *)

Ltac exec :=
  cbn [bind call run trace outcome world_after CHECK_NOTNULL deref
       printTrackingStatus kernel_call status_log fst snd].

Ltac answer :=
  match goal with
  | |- context [respond ?X ?c ?w] =>
      let x := fresh "x" in
      let w' := fresh "w" in
      let E := fresh "E" in
      destruct (respond X c w) as [x w'] eqn:E; cbn [fst snd]
  end.

Section OutlierRejection.
Context {ext : Externals} {io : Payload} {env : Environment}.

(** Running a sequence: the first part runs, and if it returns the rest
    runs in the world it left. *)
Lemma run_bind {A B : Type} (p : Prog A) (f : A -> Prog B) (w : World) :
  run (bind p f) w =
  match outcome (run p w) with
  | Returned a =>
      {| trace := trace (run p w) ++ trace (run (f a) (world_after (run p w)));
         outcome := outcome (run (f a) (world_after (run p w)));
         world_after := world_after (run (f a) (world_after (run p w))) |}
  | Stopped s =>
      {| trace := trace (run p w);
         outcome := Stopped s;
         world_after := world_after (run p w) |}
  end.
Proof.
  revert w. induction p as [a | s | X c k IH]; intros w; simpl.
  - destruct (run (f a) w); reflexivity.
  - reflexivity.
  - rewrite IH.
    destruct (outcome (run (k (fst (respond X c w))) (snd (respond X c w))));
      reflexivity.
Qed.

Lemma TrackingStatus_eqb_refl (s : TrackingStatus) :
  TrackingStatus_eqb s s = true.
Proof. apply TrackingStatus_eqb_spec. reflexivity. Qed.

Lemma TrackingStatus_eqb_neq (a b : TrackingStatus) :
  a <> b -> TrackingStatus_eqb a b = false.
Proof.
  intros N. destruct (TrackingStatus_eqb a b) eqn:E; [| reflexivity].
  apply TrackingStatus_eqb_spec in E. contradiction.
Qed.

Lemma selected_kernel_Constrained (flag : bool) (R : Rot3) :
  selected_kernel flag R = Constrained <->
  flag = true /\ Rot3_equals R Rot3_identity = false.
Proof.
  unfold selected_kernel, use_2point.
  destruct flag, (Rot3_equals R Rot3_identity); simpl;
    split; try (intros [? ?]); try intros ?; try discriminate; auto.
Qed.

Lemma selected_kernel_Unconstrained (flag : bool) (R : Rot3) :
  selected_kernel flag R = Unconstrained <->
  flag = false \/ Rot3_equals R Rot3_identity = true.
Proof.
  unfold selected_kernel, use_2point.
  destruct flag, (Rot3_equals R Rot3_identity); simpl;
    split; try (intros [? | ?]); try intros ?; try discriminate; auto.
Qed.

Lemma selected_kernel_identity (flag : bool) :
  selected_kernel flag Rot3_identity = Unconstrained.
Proof.
  apply selected_kernel_Unconstrained. right. apply Rot3_identity_equals.
Qed.

(** The CHECK of line 158 comes first. *)
Lemma outlierRejectionMono_null_pointer R lkf k cam this w :
  run (outlierRejectionMono R lkf k None cam this) w =
  {| trace := [];
     outcome := Stopped (CheckFailed "status_pose_mono");
     world_after := w |}.
Proof. reflexivity. Qed.

(** Then [tracker_] is dereferenced. *)
Lemma outlierRejectionMono_null_tracker R lkf k a cam this w :
  tracker_ this = None ->
  run (outlierRejectionMono R lkf k (Some a) cam this) w =
  {| trace := [];
     outcome := Stopped (NullDereference "tracker_");
     world_after := w |}.
Proof. intros Ht. unfold outlierRejectionMono. rewrite Ht. reflexivity. Qed.

(** With both pointers in place the call runs to its end: the whole trace
    and the result, in terms of the environment's answers. *)
Lemma outlierRejectionMono_run R lkf k a cam this t w :
  tracker_ this = Some t ->
  let flag := fst (respond _ (Tracker_ransac_use_2point_mono_ t) w) in
  let w1 := snd (respond _ (Tracker_ransac_use_2point_mono_ t) w) in
  let K := selected_kernel flag R in
  let pointee := fst (respond _ (kernel_call K t lkf k R cam) w1) in
  exists verbose : bool,
    trace (run (outlierRejectionMono R lkf k (Some a) cam this) w) =
      Called (Tracker_ransac_use_2point_mono_ t) flag
      :: Called (kernel_call K t lkf k R cam) pointee
      :: Called (VLOG_IS_ON 2) verbose
      :: status_log verbose (fst pointee)
    /\ outcome (run (outlierRejectionMono R lkf k (Some a) cam this) w) =
         Returned (pointee,
                   if TrackingStatus_eqb (fst pointee) VALID
                   then assign_lkf_T_k_mono_ (snd pointee)
                          (assign_kfTrackingStatus_mono_ (fst pointee) this)
                   else assign_kfTrackingStatus_mono_ (fst pointee) this).
Proof.
  intros Ht. unfold outlierRejectionMono, selected_kernel. rewrite Ht.
  exec. answer.
  destruct (use_2point x R); exec; answer; answer; exists x1;
    destruct x1; exec; try answer; try destruct x1; split; reflexivity.
Qed.

(** Of the calls of a complete run, one is a kernel. *)
Lemma kernels_run_complete t flag K lkf k R cam pointee verbose :
  kernels_run
    (Called (Tracker_ransac_use_2point_mono_ t) flag
     :: Called (kernel_call K t lkf k R cam) pointee
     :: Called (VLOG_IS_ON 2) verbose
     :: status_log verbose (fst pointee))
  = [(K, pointee)].
Proof. destruct K, verbose; reflexivity. Qed.

(** A call returns exactly when it was given somewhere to write and there
    is a tracker. *)
Lemma outlierRejectionMono_returns R lkf k sp cam this w :
  (exists res, outcome (run (outlierRejectionMono R lkf k sp cam this) w)
               = Returned res)
  <-> sp <> None /\ tracker_ this <> None.
Proof.
  split.
  - intros [res Hres]. destruct sp as [a |].
    + destruct (tracker_ this) as [t |] eqn:Ht.
      * split; discriminate.
      * rewrite outlierRejectionMono_null_tracker in Hres by assumption.
        discriminate Hres.
    + rewrite outlierRejectionMono_null_pointer in Hres. discriminate Hres.
  - intros [Hsp Ht]. destruct sp as [a |]; [| contradiction].
    destruct (tracker_ this) as [t |] eqn:Et; [| contradiction].
    destruct (outlierRejectionMono_run R lkf k a cam this t w Et)
      as [verbose [_ Ho]].
    eexists. exact Ho.
Qed.

(** The shape of every call that returns. *)
Lemma outlierRejectionMono_returned R lkf k sp cam this w pointee this' :
  outcome (run (outlierRejectionMono R lkf k sp cam this) w)
    = Returned (pointee, this') ->
  exists a t flag verbose,
    sp = Some a /\ tracker_ this = Some t
    /\ flag = fst (respond _ (Tracker_ransac_use_2point_mono_ t) w)
    /\ pointee = fst (respond _ (kernel_call (selected_kernel flag R) t lkf k R cam)
                        (snd (respond _ (Tracker_ransac_use_2point_mono_ t) w)))
    /\ trace (run (outlierRejectionMono R lkf k sp cam this) w) =
         Called (Tracker_ransac_use_2point_mono_ t) flag
         :: Called (kernel_call (selected_kernel flag R) t lkf k R cam) pointee
         :: Called (VLOG_IS_ON 2) verbose
         :: status_log verbose (fst pointee)
    /\ this' = (if TrackingStatus_eqb (fst pointee) VALID
                then assign_lkf_T_k_mono_ (snd pointee)
                       (assign_kfTrackingStatus_mono_ (fst pointee) this)
                else assign_kfTrackingStatus_mono_ (fst pointee) this).
Proof.
  intros Hres.
  destruct sp as [a |];
    [| rewrite outlierRejectionMono_null_pointer in Hres; discriminate Hres].
  destruct (tracker_ this) as [t |] eqn:Ht;
    [| rewrite outlierRejectionMono_null_tracker in Hres by assumption;
       discriminate Hres].
  destruct (outlierRejectionMono_run R lkf k a cam this t w Ht)
    as [verbose [Htr Ho]].
  rewrite Ho in Hres. injection Hres as Hp Hthis.
  exists a, t, (fst (respond _ (Tracker_ransac_use_2point_mono_ t) w)), verbose.
  subst pointee this'. repeat split; try reflexivity; assumption.
Qed.

(** The call writes the tracker status summary and nothing else. *)
Lemma outlierRejectionMono_keeps_fields R lkf k sp cam this w pointee this' :
  outcome (run (outlierRejectionMono R lkf k sp cam this) w)
    = Returned (pointee, this') ->
  set_tracker_status_summary_ (tracker_status_summary_ this') this = this'.
Proof.
  intros Hres. apply outlierRejectionMono_returned in Hres.
  destruct Hres as (a & t & flag & verbose & _ & _ & _ & _ & _ & ->).
  destruct (TrackingStatus_eqb (fst pointee) VALID); reflexivity.
Qed.

(** Apart from the tracker status summary, no member function of the base
    class changes a field. *)
Lemma perform_keeps_fields (op : BaseOp) (this this' : VisionFrontEnd)
    (w : World) :
  outcome (run (perform op this) w) = Returned this' ->
  set_tracker_status_summary_ (tracker_status_summary_ this') this = this'.
Proof.
  destruct op; unfold perform, keep_fields;
    try (unfold updateImuBias, isInitialized, getCurrentImuBias,
           updateAndResetImuBias, getImuFrontEndParams, getTrackerInfo,
           resetGravity, getGravity;
         try (destruct (imu_frontend_ this) as [imu |]);
         try (destruct (tracker_ this) as [t |]);
         exec; intros H; try discriminate H;
         injection H as <-; destruct this; reflexivity).
  rewrite run_bind.
  destruct (outcome (run (outlierRejectionMono keyframe_R_cur_frame frame_lkf
                            frame_k status_pose_mono stereo_camera this) w))
    as [[pointee this1] |] eqn:Ho; [| discriminate].
  cbn [run outcome snd]. intros H. injection H as <-.
  apply outlierRejectionMono_keeps_fields in Ho. exact Ho.
Qed.

(** The choice is the same whenever the flag and the prior rotation are:
    the frames, the camera, the fields and the rest of the environment do
    not enter it. *)
Corollary kernel_choice_is_deterministic
    R lkf1 k1 sp1 cam1 this1 w1 res1 lkf2 k2 sp2 cam2 this2 w2 res2 t1 t2 :
  outcome (run (outlierRejectionMono R lkf1 k1 sp1 cam1 this1) w1)
    = Returned res1 ->
  outcome (run (outlierRejectionMono R lkf2 k2 sp2 cam2 this2) w2)
    = Returned res2 ->
  tracker_ this1 = Some t1 ->
  tracker_ this2 = Some t2 ->
  fst (respond _ (Tracker_ransac_use_2point_mono_ t1) w1)
    = fst (respond _ (Tracker_ransac_use_2point_mono_ t2) w2) ->
  map fst (kernels_run
             (trace (run (outlierRejectionMono R lkf1 k1 sp1 cam1 this1) w1)))
  = map fst (kernels_run
               (trace (run (outlierRejectionMono R lkf2 k2 sp2 cam2 this2)
                         w2))).
Proof.
  intros H1 H2 Ht1 Ht2 Hflag.
  destruct res1 as [p1 this1'], res2 as [p2 this2'].
  apply outlierRejectionMono_returned in H1, H2.
  destruct H1 as (a1 & t1' & f1 & v1 & _ & Ht1' & -> & _ & -> & _).
  destruct H2 as (a2 & t2' & f2 & v2 & _ & Ht2' & -> & _ & -> & _).
  rewrite Ht1 in Ht1'. injection Ht1' as <-.
  rewrite Ht2 in Ht2'. injection Ht2' as <-.
  rewrite !kernels_run_complete. cbn [map fst]. rewrite Hflag. reflexivity.
Qed.

(** C1.  Every call of [outlierRejectionMono] that returns has run exactly
    one of the two geometric verification kernels, and no call runs more
    than one.  Which one is a function of the tracker's configuration flag
    and the prior rotation alone: the constrained kernel
    (geometricOutlierRejectionMonoGivenRotation) if and only if
    [ransac_use_2point_mono_] is true and [keyframe_R_cur_frame] does not
    equal the identity, the unconstrained one (geometricOutlierRejectionMono)
    otherwise; the identity rotation selects the unconstrained kernel
    whatever the flag.  A call returns exactly when it is given a non-null
    [status_pose_mono] and a tracker is installed. *)
Theorem outlierRejectionMono_runs_one_kernel :
  forall (R : Rot3) (lkf k sp cam : option Addr) (this : VisionFrontEnd)
         (w : World),
    (List.length (kernels_run
               (trace (run (outlierRejectionMono R lkf k sp cam this) w)))
     <= 1)%nat
    /\ ((exists res, outcome (run (outlierRejectionMono R lkf k sp cam this) w)
                     = Returned res)
        <-> sp <> None /\ tracker_ this <> None)
    /\ (forall res,
          outcome (run (outlierRejectionMono R lkf k sp cam this) w)
            = Returned res ->
          exists (t : Addr) (flag : bool) (rest : list Event),
            tracker_ this = Some t
            /\ trace (run (outlierRejectionMono R lkf k sp cam this) w)
               = Called (Tracker_ransac_use_2point_mono_ t) flag :: rest
            /\ map fst (kernels_run
                          (trace (run (outlierRejectionMono R lkf k sp cam
                                         this) w)))
               = [selected_kernel flag R])
    /\ (forall flag : bool,
          (selected_kernel flag R = Constrained
           <-> flag = true /\ Rot3_equals R Rot3_identity = false)
          /\ (selected_kernel flag R = Unconstrained
              <-> flag = false \/ Rot3_equals R Rot3_identity = true)
          /\ selected_kernel flag Rot3_identity = Unconstrained).
Proof.
  intros R lkf k sp cam this w.
  split; [| split; [apply outlierRejectionMono_returns | split]].
  - destruct sp as [a |];
      [| rewrite outlierRejectionMono_null_pointer; simpl; lia].
    destruct (tracker_ this) as [t |] eqn:Ht;
      [| rewrite outlierRejectionMono_null_tracker by assumption; simpl; lia].
    destruct (outlierRejectionMono_run R lkf k a cam this t w Ht)
      as [verbose [-> _]].
    rewrite kernels_run_complete. simpl. lia.
  - intros [pointee this'] Hres.
    apply outlierRejectionMono_returned in Hres.
    destruct Hres as (a & t & flag & verbose & _ & Ht & _ & _ & Htr & _).
    exists t, flag. eexists. split; [exact Ht |]. split; [exact Htr |].
    rewrite Htr, kernels_run_complete. reflexivity.
  - intros flag. split; [apply selected_kernel_Constrained |].
    split; [apply selected_kernel_Unconstrained |].
    apply selected_kernel_identity.
Qed.

(** C2.  A call of [outlierRejectionMono] that returns leaves in
    [kfTrackingStatus_mono_] the status returned by the one kernel it ran,
    and in [lkf_T_k_mono_] the returned pose when that status is VALID and
    the pose stored before the call otherwise; no other field changes. *)
Theorem outlierRejectionMono_records_result :
  forall (R : Rot3) (lkf k sp cam : option Addr) (this : VisionFrontEnd)
         (w : World) (pointee : TrackingStatusPose) (this' : VisionFrontEnd),
    outcome (run (outlierRejectionMono R lkf k sp cam this) w)
      = Returned (pointee, this') ->
    (exists K : Kernel,
        kernels_run (trace (run (outlierRejectionMono R lkf k sp cam this) w))
        = [(K, pointee)])
    /\ kfTrackingStatus_mono_ (tracker_status_summary_ this') = fst pointee
    /\ (fst pointee = VALID ->
        lkf_T_k_mono_ (tracker_status_summary_ this') = snd pointee)
    /\ (fst pointee <> VALID ->
        lkf_T_k_mono_ (tracker_status_summary_ this')
        = lkf_T_k_mono_ (tracker_status_summary_ this))
    /\ summary_rest_ (tracker_status_summary_ this')
       = summary_rest_ (tracker_status_summary_ this)
    /\ set_tracker_status_summary_ (tracker_status_summary_ this') this = this'.
Proof.
  intros R lkf k sp cam this w pointee this' Hres.
  apply outlierRejectionMono_returned in Hres.
  destruct Hres as (a & t & flag & verbose & _ & _ & _ & _ & Htr & ->).
  split.
  { exists (selected_kernel flag R). rewrite Htr, kernels_run_complete.
    reflexivity. }
  destruct (TrackingStatus_eqb (fst pointee) VALID) eqn:E.
  - apply TrackingStatus_eqb_spec in E.
    repeat split; try reflexivity. intros N. contradiction.
  - repeat split; try reflexivity.
    intros V. rewrite V, TrackingStatus_eqb_refl in E. discriminate E.
Qed.

(** C3.  After every dispatch outcome the mono status of the summary is the
    status of that outcome, and the mono pose of the summary is populated by
    the dispatch if and only if that status is VALID: when it is VALID the
    field holds the returned pose whatever it held before, and when it is
    not VALID the field holds what it held before, whatever that was. *)
Theorem outlierRejectionMono_status_pose_coupling :
  forall (R : Rot3) (lkf k sp cam : option Addr) (this : VisionFrontEnd)
         (w : World) (pointee : TrackingStatusPose) (this' : VisionFrontEnd),
    outcome (run (outlierRejectionMono R lkf k sp cam this) w)
      = Returned (pointee, this') ->
    kfTrackingStatus_mono_ (tracker_status_summary_ this') = fst pointee
    /\ (kfTrackingStatus_mono_ (tracker_status_summary_ this') = VALID
        <-> forall stored : Pose3,
              mono_pose_after R lkf k sp cam this w stored
              = Some (snd pointee))
    /\ (kfTrackingStatus_mono_ (tracker_status_summary_ this') <> VALID
        <-> forall stored : Pose3,
              mono_pose_after R lkf k sp cam this w stored = Some stored).
Proof.
  intros R lkf k sp cam this w pointee this' Hres.
  apply outlierRejectionMono_returned in Hres.
  destruct Hres as (a & t & flag & verbose & -> & Ht & Hflag & Hp & _ & ->).
  assert (Hafter : forall stored,
             mono_pose_after R lkf k (Some a) cam this w stored
             = Some (if TrackingStatus_eqb (fst pointee) VALID
                     then snd pointee else stored)).
  { intros stored. unfold mono_pose_after.
    destruct (outlierRejectionMono_run R lkf k a cam
                (assign_lkf_T_k_mono_ stored this) t w Ht)
      as [verbose' [_ Ho]].
    rewrite Ho. rewrite <- Hflag, <- Hp. cbn [snd].
    destruct (TrackingStatus_eqb (fst pointee) VALID); reflexivity. }
  assert (Hstatus :
            kfTrackingStatus_mono_
              (tracker_status_summary_
                 (if TrackingStatus_eqb (fst pointee) VALID
                  then assign_lkf_T_k_mono_ (snd pointee)
                         (assign_kfTrackingStatus_mono_ (fst pointee) this)
                  else assign_kfTrackingStatus_mono_ (fst pointee) this))
            = fst pointee).
  { destruct (TrackingStatus_eqb (fst pointee) VALID); reflexivity. }
  rewrite Hstatus. split; [reflexivity |].
  destruct Pose3_distinct as (p & q & Hpq).
  destruct (TrackingStatus_eqb (fst pointee) VALID) eqn:E.
  - apply TrackingStatus_eqb_spec in E. split; split.
    + intros _ stored. apply Hafter.
    + intros _. exact E.
    + intros N. contradiction.
    + intros H. exfalso.
      assert (Hp' := H p). assert (Hq' := H q).
      rewrite Hafter in Hp', Hq'. congruence.
  - assert (N : fst pointee <> VALID).
    { intros V. rewrite V, TrackingStatus_eqb_refl in E. discriminate E. }
    split; split.
    + intros V. contradiction.
    + intros H. exfalso.
      assert (Hp' := H p). assert (Hq' := H q).
      rewrite Hafter in Hp', Hq'. congruence.
    + intros _ stored. apply Hafter.
    + intros _. exact N.
Qed.

(** C7.  A null [status_pose_mono] is caught by the CHECK at the start of
    [outlierRejectionMono]: the process is terminated before any
    collaborator is called, whatever the other arguments and fields.  With
    a non-null pointer that CHECK never fires and the call goes on to the
    dispatch: with a tracker installed it runs a kernel and returns what the
    kernel returned, and the only other way it can end is the dereference
    of a null [tracker_]. *)
Theorem outlierRejectionMono_checks_status_pose :
  forall (R : Rot3) (lkf k cam : option Addr) (this : VisionFrontEnd)
         (w : World),
    run (outlierRejectionMono R lkf k None cam this) w
    = {| trace := [];
         outcome := Stopped (CheckFailed "status_pose_mono");
         world_after := w |}
    /\ (forall (a : Addr) (what : string),
          outcome (run (outlierRejectionMono R lkf k (Some a) cam this) w)
          <> Stopped (CheckFailed what))
    /\ (forall (a t : Addr),
          tracker_ this = Some t ->
          exists (K : Kernel) (pointee : TrackingStatusPose)
                 (this' : VisionFrontEnd),
            outcome (run (outlierRejectionMono R lkf k (Some a) cam this) w)
            = Returned (pointee, this')
            /\ kernels_run
                 (trace (run (outlierRejectionMono R lkf k (Some a) cam this)
                           w))
               = [(K, pointee)])
    /\ (forall (a : Addr) (s : Stop),
          outcome (run (outlierRejectionMono R lkf k (Some a) cam this) w)
          = Stopped s ->
          tracker_ this = None /\ s = NullDereference "tracker_").
Proof.
  intros R lkf k cam this w. split; [reflexivity |]. split; [| split].
  - intros a what. destruct (tracker_ this) as [t |] eqn:Ht.
    + destruct (outlierRejectionMono_run R lkf k a cam this t w Ht)
        as [verbose [_ ->]]. discriminate.
    + rewrite outlierRejectionMono_null_tracker by assumption. discriminate.
  - intros a t Ht.
    destruct (outlierRejectionMono_run R lkf k a cam this t w Ht)
      as [verbose [Htr Ho]].
    eexists. eexists. eexists. split; [exact Ho |].
    rewrite Htr, kernels_run_complete. reflexivity.
  - intros a s. destruct (tracker_ this) as [t |] eqn:Ht.
    + destruct (outlierRejectionMono_run R lkf k a cam this t w Ht)
        as [verbose [_ ->]]. discriminate.
    + rewrite outlierRejectionMono_null_tracker by assumption.
      cbn [outcome]. intros H. injection H as <-. split; reflexivity.
Qed.

End OutlierRejection.

Section Accessors.
Context {ext : Externals} {io : Payload} {env : Environment}.

(** C10, as the code has it.  The base-class constructor leaves [tracker_]
    null and no member function of the base class assigns it.  On an object
    whose [tracker_] is null, [getTrackerInfo] dereferences the null
    pointer, and so does [outlierRejectionMono] when it is given a non-null
    [status_pose_mono]; given a null [status_pose_mono] it is stopped by its
    CHECK before [tracker_] is touched.  No call of either returns. *)
Theorem tracker_is_an_unstated_precondition :
  (forall (imu_params : ImuParams) (imu_initial_bias : ImuBias)
          (display_queue : option Addr) (log_output : bool) (w : World),
      exists this : VisionFrontEnd,
        outcome (run (VisionFrontEnd_constructor imu_params imu_initial_bias
                        display_queue log_output) w) = Returned this
        /\ tracker_ this = None)
  /\ (forall (op : BaseOp) (this this' : VisionFrontEnd) (w : World),
        outcome (run (perform op this) w) = Returned this' ->
        tracker_ this' = tracker_ this)
  /\ (forall (this : VisionFrontEnd) (w : World),
        tracker_ this = None ->
        run (getTrackerInfo this) w
        = {| trace := [];
             outcome := Stopped (NullDereference "tracker_");
             world_after := w |})
  /\ (forall (R : Rot3) (lkf k cam : option Addr) (a : Addr)
             (this : VisionFrontEnd) (w : World),
        tracker_ this = None ->
        run (outlierRejectionMono R lkf k (Some a) cam this) w
        = {| trace := [];
             outcome := Stopped (NullDereference "tracker_");
             world_after := w |})
  /\ (forall (R : Rot3) (lkf k cam : option Addr)
             (this : VisionFrontEnd) (w : World),
        tracker_ this = None ->
        run (outlierRejectionMono R lkf k None cam this) w
        = {| trace := [];
             outcome := Stopped (CheckFailed "status_pose_mono");
             world_after := w |}).
Proof.
  split; [| split; [| split; [| split]]].
  - intros imu_params imu_initial_bias display_queue log_output w.
    unfold VisionFrontEnd_constructor.
    destruct log_output; exec; eexists; split; reflexivity.
  - intros op this this' w H. apply perform_keeps_fields in H.
    rewrite <- H. reflexivity.
  - intros this w Ht. unfold getTrackerInfo. rewrite Ht. reflexivity.
  - intros R lkf k cam a this w Ht.
    apply outlierRejectionMono_null_tracker. exact Ht.
  - intros R lkf k cam this w _. apply outlierRejectionMono_null_pointer.
Qed.

(** The constructor puts an IMU front end in place. *)
Lemma constructor_installs_imu_frontend imu_params imu_initial_bias
    display_queue log_output w :
  exists (this : VisionFrontEnd) (imu : Addr),
    outcome (run (VisionFrontEnd_constructor imu_params imu_initial_bias
                    display_queue log_output) w) = Returned this
    /\ imu_frontend_ this = Some imu.
Proof.
  unfold VisionFrontEnd_constructor.
  destruct log_output; exec; eexists; eexists; split; reflexivity.
Qed.

(** C8.  The constructor always returns, with the lifecycle state
    Bootstrap, both counters 0 and the last keyframe timestamp 0, so that
    [isInitialized] answers false on the new object.  On any object
    [isInitialized] answers true exactly when the state is not Bootstrap,
    calls no collaborator and changes no field. *)
Theorem constructor_starts_in_bootstrap :
  forall (imu_params : ImuParams) (imu_initial_bias : ImuBias)
         (display_queue : option Addr) (log_output : bool) (w : World),
    (exists this : VisionFrontEnd,
        outcome (run (VisionFrontEnd_constructor imu_params imu_initial_bias
                        display_queue log_output) w) = Returned this
        /\ frontend_state_ this = Bootstrap
        /\ frame_count_ this = 0
        /\ keyframe_count_ this = 0
        /\ last_keyframe_timestamp_ this = 0
        /\ forall w' : World,
             run (isInitialized this) w'
             = {| trace := [];
                  outcome := Returned (false, this);
                  world_after := w' |})
    /\ (forall (any : VisionFrontEnd) (w' : World),
          exists b : bool,
            run (isInitialized any) w'
            = {| trace := [];
                 outcome := Returned (b, any);
                 world_after := w' |}
            /\ (b = true <-> frontend_state_ any <> Bootstrap)).
Proof.
  intros imu_params imu_initial_bias display_queue log_output w. split.
  - unfold VisionFrontEnd_constructor.
    destruct log_output; exec; eexists; repeat split.
  - intros any w'. exists (negb (frontend_state_ any =? Bootstrap)).
    split; [reflexivity |].
    destruct (Z.eqb_spec (frontend_state_ any) Bootstrap) as [E | N]; simpl.
    + split; [discriminate | intros H; contradiction].
    + split; [intros _; exact N | reflexivity].
Qed.

(** C9.  On an object whose IMU front end is in place (the constructor puts
    it there), [updateAndResetImuBias b] makes exactly two collaborator
    calls, [updateBias(b)] and then [resetIntegrationWithCachedBias()],
    both on the IMU front end, and returns with every field as it was.
    Nothing in it looks at the lifecycle state: the restriction to the
    bootstrap phase is a contract, the call does the same in any state. *)
Theorem updateAndResetImuBias_two_calls :
  forall (b : ImuBias) (this : VisionFrontEnd) (imu : Addr) (w : World),
    imu_frontend_ this = Some imu ->
    trace (run (updateAndResetImuBias b this) w)
    = [Called (ImuFrontEnd_updateBias imu b) tt;
       Called (ImuFrontEnd_resetIntegrationWithCachedBias imu) tt]
    /\ outcome (run (updateAndResetImuBias b this) w) = Returned (tt, this)
    /\ (forall s : FrontendState,
          trace (run (updateAndResetImuBias b (set_frontend_state_ s this)) w)
          = trace (run (updateAndResetImuBias b this) w)
          /\ outcome (run (updateAndResetImuBias b (set_frontend_state_ s this))
                        w)
             = Returned (tt, set_frontend_state_ s this)).
Proof.
  intros b this imu w Himu. unfold updateAndResetImuBias.
  cbn [set_frontend_state_ imu_frontend_]. rewrite Himu. exec.
  answer. answer. destruct x, x0. repeat split.
Qed.

End Accessors.

Section Dispatch.
Context {ext : Externals} {io : Payload} {env : Environment} {h : Handlers}.

(** C4.  [spinOnce] dispatches on the lifecycle state.  In state Bootstrap
    it is [bootstrapSpin] on the same input and fields, in state Nominal it
    is [nominalSpin]; in any other state it logs "Unrecognized frontend
    state." fatally, which ends the process before any collaborator is
    called.  So when the state is Bootstrap or Nominal the result is that of
    a handler. *)
Theorem spinOnce_dispatches_on_state :
  forall (input : InputT) (this : VisionFrontEnd),
    (frontend_state_ this = Bootstrap ->
     spinOnce input this = bootstrapSpin input this)
    /\ (frontend_state_ this = Nominal ->
        spinOnce input this = nominalSpin input this)
    /\ (frontend_state_ this <> Bootstrap ->
        frontend_state_ this <> Nominal ->
        forall w : World,
          run (spinOnce input this) w
          = {| trace := [];
               outcome := Stopped (LogFatal "Unrecognized frontend state.");
               world_after := w |})
    /\ (frontend_state_ this = Bootstrap \/ frontend_state_ this = Nominal ->
        spinOnce input this = bootstrapSpin input this
        \/ spinOnce input this = nominalSpin input this).
Proof.
  intros input this. unfold spinOnce.
  destruct (Z.eqb_spec (frontend_state_ this) Bootstrap) as [B | NB];
    destruct (Z.eqb_spec (frontend_state_ this) Nominal) as [N | NN];
    repeat split; intros; try reflexivity; try contradiction;
    try (rewrite B in N; discriminate N); try congruence; auto.
  - destruct H; contradiction.
Qed.

End Dispatch.

Section Lifecycle.
Context {ext : Externals} {io : Payload} {env : Environment}.

Lemma bind_returned {A B : Type} (p : Prog A) (f : A -> Prog B) (w : World)
    (b : B) :
  outcome (run (bind p f) w) = Returned b ->
  exists a : A,
    outcome (run p w) = Returned a
    /\ outcome (run (f a) (world_after (run p w))) = Returned b.
Proof.
  rewrite run_bind. destruct (outcome (run p w)) as [a | s]; simpl.
  - intros H. exists a. split; [reflexivity | exact H].
  - discriminate.
Qed.

Lemma bind_returns {A B : Type} (p : Prog A) (f : A -> Prog B) (w : World)
    (a : A) :
  outcome (run p w) = Returned a ->
  outcome (run (bind p f) w) = outcome (run (f a) (world_after (run p w))).
Proof. intros H. rewrite run_bind, H. reflexivity. Qed.

Lemma increment_returned member n w n' :
  outcome (run (increment member n) w) = Returned n' ->
  n' = n + 1 /\ n < INT_MAX.
Proof.
  unfold increment. destruct (Z.ltb_spec n INT_MAX) as [Hlt | Hge]; simpl;
    intros H.
  - injection H as <-. split; [reflexivity | assumption].
  - discriminate H.
Qed.

Lemma increment_returns member n w :
  n < INT_MAX ->
  run (increment member n) w
  = {| trace := []; outcome := Returned (n + 1); world_after := w |}.
Proof.
  intros H. unfold increment.
  destruct (Z.ltb_spec n INT_MAX); [reflexivity | lia].
Qed.

(** One input through the bootstrap handler. *)
Lemma modelled_bootstrapSpin_returned input this w out this' :
  outcome (run (modelled_bootstrapSpin input this) w) = Returned (out, this') ->
  frame_count_ this' = frame_count_ this + 1
  /\ frame_count_ this < INT_MAX
  /\ tracker_ this' = tracker_ this
  /\ ((fst (respond _ (Derived_tryInitialize input) w) = None
       /\ frontend_state_ this' = frontend_state_ this
       /\ keyframe_count_ this' = keyframe_count_ this)
      \/ ((exists o, fst (respond _ (Derived_tryInitialize input) w) = Some o)
          /\ frontend_state_ this' = Nominal
          /\ keyframe_count_ this' = keyframe_count_ this + 1)).
Proof.
  unfold modelled_bootstrapSpin, increment.
  destruct (Z.ltb_spec (frame_count_ this) INT_MAX) as [Hlt | Hge]; exec;
    [| discriminate].
  destruct (respond _ (Derived_tryInitialize input) w) as [[o |] w1]; exec.
  - cbn [set_frame_count_ keyframe_count_].
    destruct (Z.ltb_spec (keyframe_count_ this) INT_MAX) as [Hk | Hk]; exec;
      [| discriminate].
    intros H. injection H as _ <-. simpl.
    repeat split; try assumption. right. repeat split. exists o. reflexivity.
  - intros H. injection H as _ <-. simpl.
    repeat split; try assumption. left. repeat split.
Qed.

(** One input through the nominal handler. *)
Lemma modelled_nominalSpin_returned input this w out this' :
  outcome (run (modelled_nominalSpin input this) w) = Returned (out, this') ->
  frame_count_ this' = frame_count_ this + 1
  /\ frame_count_ this < INT_MAX
  /\ tracker_ this' = tracker_ this
  /\ frontend_state_ this' = frontend_state_ this
  /\ (keyframe_count_ this' = keyframe_count_ this
      \/ keyframe_count_ this' = keyframe_count_ this + 1).
Proof.
  unfold modelled_nominalSpin. exec.
  destruct (respond _ (Derived_trackFeatures input) w) as [[[R lkf] k] w1].
  exec. intros H. apply bind_returned in H.
  destruct H as ([pointee this1] & Hr & H).
  apply outlierRejectionMono_keeps_fields in Hr.
  revert H. cbn [snd]. unfold increment.
  destruct (Z.ltb_spec (frame_count_ this1) INT_MAX) as [Hlt | Hge]; exec;
    [| discriminate].
  answer. destruct x; exec.
  - cbn [set_frame_count_ keyframe_count_].
    destruct (Z.ltb_spec (keyframe_count_ this1) INT_MAX) as [Hk | Hk]; exec;
      [| discriminate].
    intros H. injection H as _ <-. rewrite <- Hr in *. simpl in *.
    repeat split; try assumption. right. reflexivity.
  - intros H. injection H as _ <-. rewrite <- Hr in *. simpl in *.
    repeat split; try assumption. left. reflexivity.
Qed.

Lemma modelled_bootstrapSpin_returns input this w :
  frame_count_ this < INT_MAX ->
  keyframe_count_ this < INT_MAX ->
  exists res, outcome (run (modelled_bootstrapSpin input this) w) = Returned res.
Proof.
  intros Hf Hk. unfold modelled_bootstrapSpin, increment.
  destruct (Z.ltb_spec (frame_count_ this) INT_MAX) as [_ | Hge]; [| lia].
  exec. destruct (respond _ (Derived_tryInitialize input) w) as [[o |] w1];
    exec.
  - cbn [set_frame_count_ keyframe_count_].
    destruct (Z.ltb_spec (keyframe_count_ this) INT_MAX) as [_ | Hge]; [| lia].
    exec. eexists. reflexivity.
  - eexists. reflexivity.
Qed.

Lemma modelled_nominalSpin_returns input this w :
  tracker_ this <> None ->
  frame_count_ this < INT_MAX ->
  keyframe_count_ this < INT_MAX ->
  exists res, outcome (run (modelled_nominalSpin input this) w) = Returned res.
Proof.
  intros Ht Hf Hk. unfold modelled_nominalSpin. exec.
  destruct (respond _ (Derived_trackFeatures input) w) as [[[R lkf] k] w1].
  exec.
  destruct (proj2 (outlierRejectionMono_returns R lkf k local_status_pose_mono
                     None this w1)) as [[pointee this1] Hr].
  { split; [discriminate | exact Ht]. }
  rewrite (bind_returns _ _ _ _ Hr).
  apply outlierRejectionMono_keeps_fields in Hr.
  assert (Hf1 : frame_count_ this1 = frame_count_ this)
    by (rewrite <- Hr; reflexivity).
  assert (Hk1 : keyframe_count_ this1 = keyframe_count_ this)
    by (rewrite <- Hr; reflexivity).
  cbn [snd]. unfold increment.
  destruct (Z.ltb_spec (frame_count_ this1) INT_MAX) as [_ | Hge]; [| lia].
  exec. answer. destruct x; exec.
  - cbn [set_frame_count_ keyframe_count_].
    destruct (Z.ltb_spec (keyframe_count_ this1) INT_MAX) as [_ | Hge];
      [| lia].
    exec. eexists. reflexivity.
  - eexists. reflexivity.
Qed.

(** One input through [spinOnce] with the modelled handlers. *)
Lemma modelled_spinOnce_returned input this w out this' :
  outcome (run (spinOnce (h := modelled_handlers) input this) w)
    = Returned (out, this') ->
  frame_count_ this' = frame_count_ this + 1
  /\ frame_count_ this < INT_MAX
  /\ tracker_ this' = tracker_ this
  /\ (keyframe_count_ this' = keyframe_count_ this
      \/ keyframe_count_ this' = keyframe_count_ this + 1)
  /\ ((frontend_state_ this = Bootstrap /\ frontend_state_ this' = Bootstrap
       /\ fst (respond _ (Derived_tryInitialize input) w) = None)
      \/ (frontend_state_ this = Bootstrap /\ frontend_state_ this' = Nominal
          /\ exists o, fst (respond _ (Derived_tryInitialize input) w) = Some o)
      \/ (frontend_state_ this = Nominal /\ frontend_state_ this' = Nominal)).
Proof.
  unfold spinOnce. cbn [bootstrapSpin nominalSpin modelled_handlers].
  destruct (Z.eqb_spec (frontend_state_ this) Bootstrap) as [B | NB].
  - intros H. apply modelled_bootstrapSpin_returned in H.
    destruct H as (Hf & Hlt & Ht & [(Hnone & Hs & Hk) | (Hsome & Hs & Hk)]);
      (split; [exact Hf | split; [exact Hlt | split; [exact Ht | split]]]).
    + left. exact Hk.
    + left. repeat split; congruence.
    + right. exact Hk.
    + right. left. repeat split; assumption.
  - destruct (Z.eqb_spec (frontend_state_ this) Nominal) as [N | NN].
    + intros H. apply modelled_nominalSpin_returned in H.
      destruct H as (Hf & Hlt & Ht & Hs & Hk).
      split; [exact Hf | split; [exact Hlt | split; [exact Ht | split]]].
      * exact Hk.
      * right. right. split; congruence.
    + discriminate.
Qed.

Lemma modelled_spinOnce_returns input this w :
  frontend_state_ this = Bootstrap \/ frontend_state_ this = Nominal ->
  tracker_ this <> None ->
  frame_count_ this < INT_MAX ->
  keyframe_count_ this < INT_MAX ->
  exists res,
    outcome (run (spinOnce (h := modelled_handlers) input this) w)
    = Returned res.
Proof.
  intros Hs Ht Hf Hk. unfold spinOnce.
  cbn [bootstrapSpin nominalSpin modelled_handlers].
  destruct (Z.eqb_spec (frontend_state_ this) Bootstrap) as [B | NB].
  - apply modelled_bootstrapSpin_returns; assumption.
  - destruct (Z.eqb_spec (frontend_state_ this) Nominal) as [N | NN].
    + apply modelled_nominalSpin_returns; assumption.
    + destruct Hs; contradiction.
Qed.

Lemma spinMany_cons_returned {h : Handlers} input rest this w later :
  outcome (run (spinMany (input :: rest) this) w) = Returned later ->
  exists out this1 later1,
    outcome (run (spinOnce input this) w) = Returned (out, this1)
    /\ outcome (run (spinMany rest this1)
                  (world_after (run (spinOnce input this) w)))
       = Returned later1
    /\ later = this1 :: later1.
Proof.
  cbn [spinMany]. intros H.
  apply bind_returned in H. destruct H as ([out this1] & H1 & H).
  cbn [snd] in H. apply bind_returned in H. destruct H as (later1 & H2 & H).
  cbn [run outcome] in H. injection H as <-.
  exists out, this1, later1. repeat split; assumption.
Qed.

(** After [n] calls the frame counter has advanced by [n]. *)
Lemma spinMany_frame_count inputs :
  forall this w later,
    outcome (run (spinMany (h := modelled_handlers) inputs this) w)
      = Returned later ->
    List.length later = List.length inputs
    /\ forall n st,
         nth_error (this :: later) n = Some st ->
         frame_count_ st = frame_count_ this + Z.of_nat n.
Proof.
  induction inputs as [| input rest IH]; intros this w later H.
  - cbn in H. injection H as <-. split; [reflexivity |].
    intros [| [| n]] st Hn; try discriminate Hn.
    injection Hn as <-. simpl. lia.
  - apply spinMany_cons_returned in H.
    destruct H as (out & this1 & later1 & H1 & H2 & ->).
    apply modelled_spinOnce_returned in H1. destruct H1 as (Hf & _).
    apply IH in H2. destruct H2 as [Hlen Hnth]. split.
    + simpl. rewrite Hlen. reflexivity.
    + intros [| n] st Hn.
      * injection Hn as <-. simpl. lia.
      * cbn [nth_error] in Hn. apply Hnth in Hn. rewrite Hn, Hf. lia.
Qed.

(** [frame_count_ >= keyframe_count_ >= 0] is kept by every call. *)
Lemma spinMany_counters_ok inputs :
  forall this w later,
    counters_ok this ->
    outcome (run (spinMany (h := modelled_handlers) inputs this) w)
      = Returned later ->
    Forall counters_ok (this :: later).
Proof.
  induction inputs as [| input rest IH]; intros this w later Hok H.
  - cbn in H. injection H as <-. constructor; [assumption | constructor].
  - apply spinMany_cons_returned in H.
    destruct H as (out & this1 & later1 & H1 & H2 & ->).
    apply modelled_spinOnce_returned in H1.
    destruct H1 as (Hf & _ & _ & Hk & _).
    constructor; [assumption |]. apply (IH _ _ _) in H2; [assumption |].
    unfold counters_ok in *. destruct Hk as [Hk | Hk]; lia.
Qed.

(** Once Nominal, always Nominal. *)
Lemma spinMany_nominal inputs :
  forall this w later,
    frontend_state_ this = Nominal ->
    outcome (run (spinMany (h := modelled_handlers) inputs this) w)
      = Returned later ->
    lifecycle this later = repeat Nominal (S (List.length later)).
Proof.
  induction inputs as [| input rest IH]; intros this w later Hs H.
  - cbn in H. injection H as <-. unfold lifecycle. simpl. rewrite Hs.
    reflexivity.
  - apply spinMany_cons_returned in H.
    destruct H as (out & this1 & later1 & H1 & H2 & ->).
    apply modelled_spinOnce_returned in H1.
    destruct H1 as (_ & _ & _ & _ & [(B & _) | [(B & _) | (_ & N)]]);
      try (rewrite Hs in B; discriminate B).
    apply (IH _ _ _ N) in H2. unfold lifecycle in *.
    cbn [map List.length repeat] in *. rewrite Hs, H2. reflexivity.
Qed.

(** From Bootstrap: Bootstrap for a while, then Nominal for good. *)
Lemma spinMany_bootstrap inputs :
  forall this w later,
    frontend_state_ this = Bootstrap ->
    outcome (run (spinMany (h := modelled_handlers) inputs this) w)
      = Returned later ->
    exists n m : nat,
      lifecycle this later = (repeat Bootstrap (S n) ++ repeat Nominal m)%list.
Proof.
  induction inputs as [| input rest IH]; intros this w later Hs H.
  - cbn in H. injection H as <-. exists 0%nat, 0%nat. unfold lifecycle.
    simpl. rewrite Hs. reflexivity.
  - apply spinMany_cons_returned in H.
    destruct H as (out & this1 & later1 & H1 & H2 & ->).
    apply modelled_spinOnce_returned in H1.
    destruct H1 as (_ & _ & _ & _ & [(_ & B & _) | [(_ & N & _) | (N & _)]]).
    + apply (IH _ _ _ B) in H2. destruct H2 as (n & m & H2).
      exists (S n), m. unfold lifecycle in *. cbn [map] in *.
      rewrite Hs, H2. reflexivity.
    + apply (spinMany_nominal _ _ _ _ N) in H2.
      exists 0%nat, (S (List.length later1)). unfold lifecycle in *.
      cbn [map] in *. rewrite Hs, H2. reflexivity.
    + rewrite Hs in N. discriminate N.
Qed.

Lemma bootstrap_then_nominal_repeat (n m : nat) :
  bootstrap_then_nominal (repeat Bootstrap n ++ repeat Nominal m)%list = true.
Proof.
  induction n as [| n IH]; simpl.
  - destruct m as [| m]; [reflexivity |]. cbn [repeat bootstrap_then_nominal].
    simpl. induction m as [| m IHm]; [reflexivity | exact IHm].
  - exact IH.
Qed.

(** With a tracker in place and room in the counters, every call returns. *)
Lemma spinMany_returns inputs :
  forall this w,
    frontend_state_ this = Bootstrap \/ frontend_state_ this = Nominal ->
    tracker_ this <> None ->
    counters_ok this ->
    frame_count_ this + Z.of_nat (List.length inputs) <= INT_MAX ->
    exists later,
      outcome (run (spinMany (h := modelled_handlers) inputs this) w)
      = Returned later.
Proof.
  induction inputs as [| input rest IH]; intros this w Hs Ht Hok Hroom.
  - exists []. reflexivity.
  - cbn [List.length] in Hroom. unfold counters_ok in Hok.
    destruct (modelled_spinOnce_returns input this w Hs Ht) as [[out this1] H1];
      try lia.
    cbn [spinMany]. rewrite (bind_returns _ _ _ _ H1). cbn [snd].
    pose proof (modelled_spinOnce_returned _ _ _ _ _ H1)
      as (Hf & _ & Ht1 & Hk & Hs1).
    destruct (IH this1
                (world_after
                   (run (spinOnce (h := modelled_handlers) input this) w)))
      as [later1 H2].
    + destruct Hs1 as [(_ & B & _) | [(_ & N & _) | (_ & N)]]; auto.
    + rewrite Ht1. exact Ht.
    + unfold counters_ok. destruct Hk as [Hk | Hk]; lia.
    + lia.
    + rewrite (bind_returns _ _ _ _ H2). eexists. reflexivity.
Qed.

(** What the derived constructor hands over. *)
Lemma Derived_constructor_run imu_params imu_initial_bias display_queue
    log_output w :
  exists this,
    outcome (run (Derived_constructor imu_params imu_initial_bias
                    display_queue log_output) w) = Returned this
    /\ frontend_state_ this = Bootstrap
    /\ frame_count_ this = 0
    /\ keyframe_count_ this = 0
    /\ tracker_ this <> None.
Proof.
  unfold Derived_constructor, VisionFrontEnd_constructor.
  destruct log_output; exec; eexists; repeat split; discriminate.
Qed.

Lemma session_returned imu_params imu_initial_bias display_queue log_output
    inputs w this later :
  outcome (run (session imu_params imu_initial_bias display_queue log_output
                  inputs) w) = Returned (this, later) ->
  exists w1,
    outcome (run (spinMany (h := modelled_handlers) inputs this) w1)
    = Returned later
    /\ frontend_state_ this = Bootstrap
    /\ frame_count_ this = 0
    /\ keyframe_count_ this = 0.
Proof.
  unfold session. intros H.
  apply bind_returned in H. destruct H as (this0 & H0 & H).
  apply bind_returned in H. destruct H as (later0 & H1 & H).
  cbn [run outcome] in H. injection H as <- <-.
  destruct (Derived_constructor_run imu_params imu_initial_bias display_queue
              log_output w) as (this1 & Hc & Hs & Hf & Hk & _).
  rewrite H0 in Hc. injection Hc as <-.
  eexists. repeat split; eassumption.
Qed.

Lemma session_returns imu_params imu_initial_bias display_queue log_output
    inputs w :
  Z.of_nat (List.length inputs) <= INT_MAX ->
  exists res,
    outcome (run (session imu_params imu_initial_bias display_queue log_output
                    inputs) w) = Returned res.
Proof.
  intros Hlen. unfold session.
  destruct (Derived_constructor_run imu_params imu_initial_bias display_queue
              log_output w) as (this & Hc & Hs & Hf & Hk & Ht).
  rewrite (bind_returns _ _ _ _ Hc).
  destruct (spinMany_returns inputs this
              (world_after (run (Derived_constructor imu_params
                                   imu_initial_bias display_queue log_output)
                              w))) as [later H]; auto.
  - unfold counters_ok. lia.
  - lia.
  - rewrite (bind_returns _ _ _ _ H). eexists. reflexivity.
Qed.

Lemma last_cons {A : Type} (l : list A) (x d : A) :
  last (x :: l) d = last l x.
Proof.
  revert x d. induction l as [| y l IH]; intros x d; [reflexivity |].
  change (last (x :: y :: l) d) with (last (y :: l) d).
  rewrite (IH y d), (IH y x). reflexivity.
Qed.

Lemma nth_error_last {A : Type} (l : list A) (d : A) :
  nth_error (d :: l) (List.length l) = Some (last l d).
Proof.
  revert d. induction l as [| x l IH]; intros d; [reflexivity |].
  cbn [List.length nth_error]. rewrite IH, last_cons. reflexivity.
Qed.

(** C5.  A derived front end, with the handlers as the specification
    describes them, starts in Bootstrap; over any sequence of inputs its
    lifecycle state is Bootstrap for a while and then Nominal for good.  A
    call of [spinOnce] changes the state only from Bootstrap to Nominal and
    only when initialisation succeeded on that input, and no member function
    of the base class writes [frontend_state_].  The session runs to its end
    as long as the frame counter has room. *)
Theorem lifecycle_never_returns_to_bootstrap :
  (forall (imu_params : ImuParams) (imu_initial_bias : ImuBias)
          (display_queue : option Addr) (log_output : bool)
          (inputs : list InputT) (w : World),
      (Z.of_nat (List.length inputs) <= INT_MAX ->
       exists res,
         outcome (run (session imu_params imu_initial_bias display_queue
                         log_output inputs) w) = Returned res)
      /\ forall (this : VisionFrontEnd) (later : list VisionFrontEnd),
           outcome (run (session imu_params imu_initial_bias display_queue
                           log_output inputs) w) = Returned (this, later) ->
           frontend_state_ this = Bootstrap
           /\ bootstrap_then_nominal (lifecycle this later) = true
           /\ exists n m : nat,
                lifecycle this later
                = (repeat Bootstrap (S n) ++ repeat Nominal m)%list)
  /\ (forall (input : InputT) (this : VisionFrontEnd) (w : World)
             (out : option OutputT) (this' : VisionFrontEnd),
        outcome (run (spinOnce (h := modelled_handlers) input this) w)
          = Returned (out, this') ->
        (frontend_state_ this' <> frontend_state_ this ->
         frontend_state_ this = Bootstrap
         /\ frontend_state_ this' = Nominal
         /\ exists o : OutputT,
              fst (respond _ (Derived_tryInitialize input) w) = Some o)
        /\ (frontend_state_ this = Nominal -> frontend_state_ this' = Nominal))
  /\ (forall (op : BaseOp) (this this' : VisionFrontEnd) (w : World),
        outcome (run (perform op this) w) = Returned this' ->
        frontend_state_ this' = frontend_state_ this).
Proof.
  split; [| split].
  - intros imu_params imu_initial_bias display_queue log_output inputs w.
    split; [apply session_returns |].
    intros this later H. apply session_returned in H.
    destruct H as (w1 & H & Hs & _). split; [exact Hs |].
    destruct (spinMany_bootstrap inputs this w1 later Hs H) as (n & m & Hl).
    split; [| exists n, m; exact Hl].
    rewrite Hl. apply bootstrap_then_nominal_repeat.
  - intros input this w out this' H.
    apply modelled_spinOnce_returned in H.
    destruct H as (_ & _ & _ & _ & [(B & B' & _) | [(B & N & Hsome) | (N & N')]]).
    + split; [intros Hne; congruence | intros N; congruence].
    + split; [intros _; repeat split; assumption | intros _; exact N].
    + split; [intros Hne; congruence | intros _; exact N'].
  - intros op this this' w H. apply perform_keeps_fields in H.
    rewrite <- H. reflexivity.
Qed.

(** C6.  On a freshly constructed derived front end, with the handlers as
    the specification describes them, the frame counter after [n] calls of
    [spinOnce] is [n], in particular it is the number of inputs at the end,
    and [frame_count_ >= keyframe_count_ >= 0] holds before the first call
    and after every call.  The calls all return as long as the number of
    inputs fits an [int]. *)
Theorem frame_count_counts_calls :
  forall (imu_params : ImuParams) (imu_initial_bias : ImuBias)
         (display_queue : option Addr) (log_output : bool)
         (inputs : list InputT) (w : World),
    (Z.of_nat (List.length inputs) <= INT_MAX ->
     exists res,
       outcome (run (session imu_params imu_initial_bias display_queue
                       log_output inputs) w) = Returned res)
    /\ forall (this : VisionFrontEnd) (later : list VisionFrontEnd),
         outcome (run (session imu_params imu_initial_bias display_queue
                         log_output inputs) w) = Returned (this, later) ->
         frame_count_ (last later this) = Z.of_nat (List.length inputs)
         /\ (forall (n : nat) (st : VisionFrontEnd),
               nth_error (this :: later) n = Some st ->
               frame_count_ st = Z.of_nat n)
         /\ Forall counters_ok (this :: later).
Proof.
  intros imu_params imu_initial_bias display_queue log_output inputs w.
  split; [apply session_returns |].
  intros this later H. apply session_returned in H.
  destruct H as (w1 & H & _ & Hf & Hk).
  destruct (spinMany_frame_count inputs this w1 later H) as [Hlen Hnth].
  split; [| split].
  - rewrite <- Hlen, (Hnth _ _ (nth_error_last later this)). lia.
  - intros n st Hn. rewrite (Hnth _ _ Hn). lia.
  - apply (spinMany_counters_ok inputs this w1); [| exact H].
    unfold counters_ok. lia.
Qed.

End Lifecycle.

Section MemberFunctions.
Context {ext : Externals} {io : Payload} {env : Environment}.
















End MemberFunctions.

Section Details.
Context {ext : Externals} {io : Payload} {env : Environment}.



(** X6.  [outlierRejectionMono] hands its arguments on unchanged and
    unchecked: the kernel is called on the object [tracker_] points to with
    the very frame pointers it was given, null or not, and the constrained
    kernel also with the prior rotation and the stereo camera.  When the
    unconstrained kernel is selected the stereo camera is not used at all:
    the whole run is the same for any other. *)
Theorem outlierRejectionMono_forwards_its_arguments :
  forall (R : Rot3) (lkf k sp cam : option Addr) (this : VisionFrontEnd)
         (w : World) (pointee : TrackingStatusPose) (this' : VisionFrontEnd),
    outcome (run (outlierRejectionMono R lkf k sp cam this) w)
      = Returned (pointee, this') ->
    exists (t : Addr) (flag : bool),
      tracker_ this = Some t
      /\ flag = fst (respond _ (Tracker_ransac_use_2point_mono_ t) w)
      /\ In (Called (kernel_call (selected_kernel flag R) t lkf k R cam)
               pointee)
            (trace (run (outlierRejectionMono R lkf k sp cam this) w))
      /\ (selected_kernel flag R = Unconstrained ->
          forall cam' : option Addr,
            run (outlierRejectionMono R lkf k sp cam' this) w
            = run (outlierRejectionMono R lkf k sp cam this) w).
Proof.
  intros R lkf k sp cam this w pointee this' Hres.
  apply outlierRejectionMono_returned in Hres.
  destruct Hres as (a & t & flag & verbose & -> & Ht & Hflag & _ & Htr & _).
  exists t, flag. split; [exact Ht |]. split; [exact Hflag |]. split.
  - rewrite Htr. right. left. reflexivity.
  - intros Hsel cam'. unfold outlierRejectionMono. rewrite Ht. exec.
    unfold selected_kernel in Hsel. rewrite <- Hflag.
    destruct (use_2point flag R); [discriminate Hsel | reflexivity].
Qed.

(** X7.  [updateAndResetImuBias] is [updateImuBias] followed by
    [resetIntegrationWithCachedBias()] on the same IMU front end: the two
    call trees are equal, the null [imu_frontend_] included. *)
Theorem updateAndResetImuBias_is_update_then_reset :
  forall (b : ImuBias) (this : VisionFrontEnd),
    updateAndResetImuBias b this
    = (r <- updateImuBias b this ;;
       imu <- deref "imu_frontend_" (imu_frontend_ (snd r)) ;;
       call (ImuFrontEnd_resetIntegrationWithCachedBias imu) ;;
       Ret r).
Proof.
  intros b this. unfold updateAndResetImuBias, updateImuBias.
  destruct (imu_frontend_ this) as [imu |] eqn:Himu; cbn.
  - rewrite Himu. reflexivity.
  - reflexivity.
Qed.

(** X8.  The accessors that relay to a collaborator make exactly one call,
    on the object the pointer holds, carrying the argument they were given,
    and hand back the answer as it came.  The front end keeps no copy:
    [getCurrentImuBias] right after [updateImuBias b] asks the IMU front end
    again and returns what it answers.  The fields are returned as they
    were. *)
Theorem accessors_relay_one_call :
  forall (this : VisionFrontEnd) (w : World),
    (forall (imu : Addr), imu_frontend_ this = Some imu ->
       (forall b : ImuBias,
          exists u : unit,
            trace (run (updateImuBias b this) w)
            = [Called (ImuFrontEnd_updateBias imu b) u]
            /\ outcome (run (updateImuBias b this) w) = Returned (tt, this))
       /\ (exists b : ImuBias,
            trace (run (getCurrentImuBias this) w)
            = [Called (ImuFrontEnd_getCurrentImuBias imu) b]
            /\ outcome (run (getCurrentImuBias this) w) = Returned (b, this))
       /\ (exists p : GtsamImuParams,
            trace (run (getImuFrontEndParams this) w)
            = [Called (ImuFrontEnd_getGtsamImuParams imu) p]
            /\ outcome (run (getImuFrontEndParams this) w) = Returned (p, this))
       /\ (forall g : Vector3,
            exists u : unit,
              trace (run (resetGravity g this) w)
              = [Called (ImuFrontEnd_resetPreintegrationGravity imu g) u]
              /\ outcome (run (resetGravity g this) w) = Returned (tt, this))
       /\ (exists g : Vector3,
            trace (run (getGravity this) w)
            = [Called (ImuFrontEnd_getPreintegrationGravity imu) g]
            /\ outcome (run (getGravity this) w) = Returned (g, this))
       /\ (forall b : ImuBias,
            exists (u : unit) (b' : ImuBias),
              trace (run (r <- updateImuBias b this ;;
                          getCurrentImuBias (snd r)) w)
              = [Called (ImuFrontEnd_updateBias imu b) u;
                 Called (ImuFrontEnd_getCurrentImuBias imu) b']
              /\ outcome (run (r <- updateImuBias b this ;;
                               getCurrentImuBias (snd r)) w)
                 = Returned (b', this)))
    /\ (forall (t : Addr), tracker_ this = Some t ->
          exists info : DebugTrackerInfo,
            trace (run (getTrackerInfo this) w)
            = [Called (Tracker_debug_info_ t) info]
            /\ outcome (run (getTrackerInfo this) w) = Returned (info, this)).
Proof.
  intros this w. split.
  - intros imu Himu.
    unfold updateImuBias, getCurrentImuBias, getImuFrontEndParams,
      resetGravity, getGravity.
    rewrite Himu. exec.
    repeat split; intros; try (eexists; split; reflexivity).
    cbn [snd]. rewrite Himu. exec. eexists. eexists. split; reflexivity.
  - intros t Ht. unfold getTrackerInfo. rewrite Ht. exec.
    eexists. split; reflexivity.
Qed.

(** X9.  The constructor stores its [display_queue] argument, points
    [imu_frontend_] at the IMU front end it has made from [imu_params] and
    [imu_initial_bias], makes a logger exactly when [log_output] is set and
    leaves [logger_] null otherwise, default-constructs the tracker status
    summary, and calls nothing else. *)
Theorem constructor_wires_its_arguments :
  forall (imu_params : ImuParams) (imu_initial_bias : ImuBias)
         (display_queue : option Addr) (log_output : bool) (w : World),
    exists (this : VisionFrontEnd) (imu : Addr),
      outcome (run (VisionFrontEnd_constructor imu_params imu_initial_bias
                      display_queue log_output) w) = Returned this
      /\ imu_frontend_ this = Some imu
      /\ display_queue_ this = display_queue
      /\ (logger_ this <> None <-> log_output = true)
      /\ tracker_status_summary_ this = TrackerStatusSummary_default
      /\ trace (run (VisionFrontEnd_constructor imu_params imu_initial_bias
                       display_queue log_output) w)
         = Called (make_unique_ImuFrontEnd imu_params imu_initial_bias) imu
           :: match logger_ this with
              | Some logger => [Called make_unique_FrontendLogger logger]
              | None => []
              end.
Proof.
  intros imu_params imu_initial_bias display_queue log_output w.
  unfold VisionFrontEnd_constructor.
  destruct log_output; exec; eexists; eexists;
    (split; [reflexivity |]); cbn;
    repeat split; try reflexivity; try discriminate; intros H;
    try discriminate H; contradiction.
Qed.

End Details.

Section Readiness.
Context {ext : Externals} {io : Payload} {env : Environment} {h : Handlers}.

(** X10.  [isInitialized] and [spinOnce] read the same state but do not
    split it the same way.  When [isInitialized] answers false, [spinOnce]
    runs the bootstrap handler.  When it answers true, [spinOnce] runs the
    nominal handler only if the state is Nominal: in every other state,
    which [isInitialized] also reports as initialized, [spinOnce] ends the
    process. *)
Theorem isInitialized_is_weaker_than_nominal :
  forall (input : InputT) (this : VisionFrontEnd) (w : World),
    exists b : bool,
      outcome (run (isInitialized this) w) = Returned (b, this)
      /\ (b = false -> spinOnce input this = bootstrapSpin input this)
      /\ (b = true ->
          (frontend_state_ this = Nominal
           /\ spinOnce input this = nominalSpin input this)
          \/ (frontend_state_ this <> Nominal
              /\ spinOnce input this
                 = Abort (LogFatal "Unrecognized frontend state.")))
      /\ (forall s : FrontendState,
            s <> Bootstrap -> s <> Nominal ->
            outcome (run (isInitialized (set_frontend_state_ s this)) w)
            = Returned (true, set_frontend_state_ s this)
            /\ outcome (run (spinOnce input (set_frontend_state_ s this)) w)
               = Stopped (LogFatal "Unrecognized frontend state.")).
Proof.
  intros input this w.
  exists (negb (frontend_state_ this =? Bootstrap)).
  split; [reflexivity |]. unfold spinOnce.
  split; [| split].
  - intros Hb. apply negb_false_iff in Hb. rewrite Hb. reflexivity.
  - intros Hb. apply negb_true_iff in Hb. rewrite Hb.
    destruct (Z.eqb_spec (frontend_state_ this) Nominal) as [N | NN].
    + left. split; [exact N | reflexivity].
    + right. split; [exact NN | reflexivity].
  - intros s HB HN. unfold isInitialized.
    cbn [frontend_state_ set_frontend_state_ run outcome].
    destruct (Z.eqb_spec s Bootstrap) as [B | _]; [contradiction |].
    destruct (Z.eqb_spec s Nominal) as [N | _]; [contradiction |].
    split; reflexivity.
Qed.

End Readiness.

(** * The model on concrete inputs *)

Section Scenarios.
Import Sample.
#[local] Existing Instances Sample.ext Sample.io Sample.env.

(** The flag set and the prior equal to the identity: the 5-point kernel
    runs and its status lands in the summary. *)
Example identity_prior_runs_unconstrained :
  kernels_run (trace (reject identity3 (Some 5%positive) fresh_derived true
                        [(Status_LOW_DISPARITY, moved_pose)]))
  = [(Unconstrained, (Status_LOW_DISPARITY, moved_pose))]
  /\ outcome (reject identity3 (Some 5%positive) fresh_derived true
                [(Status_LOW_DISPARITY, moved_pose)])
     = Returned ((Status_LOW_DISPARITY, moved_pose),
                 assign_kfTrackingStatus_mono_ Status_LOW_DISPARITY
                   fresh_derived).
Proof. split; reflexivity. Qed.

(** The same flag and a rotation about Z: the 2-point kernel runs. *)
Example rotated_prior_runs_constrained :
  kernels_run (trace (reject about_Z (Some 5%positive) fresh_derived true
                        [(Status_VALID, moved_pose)]))
  = [(Constrained, (Status_VALID, moved_pose))]
  /\ outcome (reject about_Z (Some 5%positive) fresh_derived true
                [(Status_VALID, moved_pose)])
     = Returned ((Status_VALID, moved_pose),
                 assign_lkf_T_k_mono_ moved_pose
                   (assign_kfTrackingStatus_mono_ Status_VALID fresh_derived)).
Proof. split; reflexivity. Qed.

(** The flag cleared: the 5-point kernel runs whatever the prior. *)
Example flag_off_runs_unconstrained :
  map fst (kernels_run (trace (reject about_Z (Some 5%positive) fresh_derived
                                 false [(Status_VALID, moved_pose)])))
  = [Unconstrained].
Proof. reflexivity. Qed.

(** [equals] is gtsam's comparison up to a tolerance: a rotation that is
    not the identity matrix but within 1e-9 of it counts as the identity. *)
Example nearly_identity_prior_runs_unconstrained :
  nearly_identity3 <> identity3
  /\ map fst (kernels_run (trace (reject nearly_identity3 (Some 5%positive)
                                    fresh_derived true
                                    [(Status_VALID, moved_pose)])))
     = [Unconstrained].
Proof. split; [discriminate | reflexivity]. Qed.

(** The base-class constructor builds [fresh_base]. *)
Example constructor_builds_fresh_base :
  outcome (run (VisionFrontEnd_constructor tt 0 None false) (script true [] 0))
  = Returned fresh_base.
Proof. reflexivity. Qed.

(** Five inputs, initialisation succeeding on the third: state, frame
    count, keyframe count and last keyframe timestamp after each call. *)
Example five_inputs :
  match outcome (run (session tt 0 None false [100; 200; 300; 400; 500])
                   (script true [(Status_LOW_DISPARITY, moved_pose);
                                 (Status_VALID, moved_pose)] 2)) with
  | Returned (_, later) =>
      map (fun st => (frontend_state_ st, frame_count_ st,
                      keyframe_count_ st, last_keyframe_timestamp_ st)) later
  | Stopped _ => []
  end
  = [(Bootstrap, 1, 0, 0); (Bootstrap, 2, 0, 0); (Nominal, 3, 1, 300);
     (Nominal, 4, 1, 300); (Nominal, 5, 2, 500)].
Proof. vm_compute. reflexivity. Qed.

Lemma outlierRejectionMono_runs_one_kernel_witness :
  exists (t : Addr) (flag : bool) (rest : list Event),
    tracker_ Sample.fresh_derived = Some t
    /\ trace (Sample.reject Sample.about_Z (Some 5%positive)
                Sample.fresh_derived true
                [(Sample.Status_VALID, Sample.moved_pose)])
       = Called (Tracker_ransac_use_2point_mono_ t) flag :: rest
    /\ map fst (kernels_run
                  (trace (Sample.reject Sample.about_Z (Some 5%positive)
                            Sample.fresh_derived true
                            [(Sample.Status_VALID, Sample.moved_pose)])))
       = [selected_kernel flag Sample.about_Z].
Proof.
  refine (proj1 (proj2 (proj2
    (@outlierRejectionMono_runs_one_kernel Sample.ext Sample.io Sample.env
       Sample.about_Z None None (Some 5%positive) None Sample.fresh_derived
       (Sample.script true [(Sample.Status_VALID, Sample.moved_pose)] 0))))
    _ _).
  reflexivity.
Defined.

Lemma outlierRejectionMono_records_result_witness :
  kfTrackingStatus_mono_
    (tracker_status_summary_
       (assign_kfTrackingStatus_mono_ Sample.Status_LOW_DISPARITY
          Sample.fresh_derived))
  = Sample.Status_LOW_DISPARITY
  /\ lkf_T_k_mono_
       (tracker_status_summary_
          (assign_kfTrackingStatus_mono_ Sample.Status_LOW_DISPARITY
             Sample.fresh_derived))
     = lkf_T_k_mono_ (tracker_status_summary_ Sample.fresh_derived).
Proof.
  pose proof
    (@outlierRejectionMono_records_result Sample.ext Sample.io Sample.env
       Sample.identity3 None None (Some 5%positive) None Sample.fresh_derived
       (Sample.script true [(Sample.Status_LOW_DISPARITY, Sample.moved_pose)] 0)
       (Sample.Status_LOW_DISPARITY, Sample.moved_pose)
       (assign_kfTrackingStatus_mono_ Sample.Status_LOW_DISPARITY
          Sample.fresh_derived)
       eq_refl) as (_ & Hstatus & _ & Hstale & _).
  split; [exact Hstatus | apply Hstale; discriminate].
Defined.

Lemma outlierRejectionMono_status_pose_coupling_witness :
  mono_pose_after about_Z None None (Some 5%positive) None fresh_derived
    (script true [(Status_VALID, moved_pose)] 0) identity_pose
  = Some moved_pose
  /\ mono_pose_after identity3 None None (Some 5%positive) None fresh_derived
       (script true [(Status_FEW_MATCHES, moved_pose)] 0) identity_pose
     = Some identity_pose.
Proof.
  split.
  - exact (proj1 (proj1 (proj2
      (@outlierRejectionMono_status_pose_coupling Sample.ext Sample.io
         Sample.env about_Z None None (Some 5%positive) None fresh_derived
         (script true [(Status_VALID, moved_pose)] 0)
         (Status_VALID, moved_pose)
         (assign_lkf_T_k_mono_ moved_pose
            (assign_kfTrackingStatus_mono_ Status_VALID fresh_derived))
         eq_refl))) eq_refl identity_pose).
  - refine (proj1 (proj2 (proj2
      (@outlierRejectionMono_status_pose_coupling Sample.ext Sample.io
         Sample.env identity3 None None (Some 5%positive) None fresh_derived
         (script true [(Status_FEW_MATCHES, moved_pose)] 0)
         (Status_FEW_MATCHES, moved_pose)
         (assign_kfTrackingStatus_mono_ Status_FEW_MATCHES fresh_derived)
         eq_refl))) _ identity_pose).
    discriminate.
Defined.

Lemma outlierRejectionMono_checks_status_pose_witness :
  exists (K : Kernel) (pointee : @TrackingStatusPose Sample.ext)
         (this' : @VisionFrontEnd Sample.ext),
    outcome (Sample.reject Sample.about_Z (Some 5%positive)
               Sample.fresh_derived true
               [(Sample.Status_VALID, Sample.moved_pose)])
    = Returned (pointee, this')
    /\ kernels_run
         (trace (Sample.reject Sample.about_Z (Some 5%positive)
                   Sample.fresh_derived true
                   [(Sample.Status_VALID, Sample.moved_pose)]))
       = [(K, pointee)].
Proof.
  refine (proj1 (proj2 (proj2
    (@outlierRejectionMono_checks_status_pose Sample.ext Sample.io Sample.env
       Sample.about_Z None None None Sample.fresh_derived
       (Sample.script true [(Sample.Status_VALID, Sample.moved_pose)] 0))))
    5%positive 11%positive _).
  reflexivity.
Defined.

Lemma tracker_is_an_unstated_precondition_witness :
  @run Sample.ext Sample.io Sample.env _
    (outlierRejectionMono Sample.about_Z None None (Some 5%positive) None
       Sample.fresh_base) (Sample.script true [] 0)
  = {| trace := [];
       outcome := Stopped (NullDereference "tracker_");
       world_after := Sample.script true [] 0 |}.
Proof.
  refine (proj1 (proj2 (proj2 (proj2
    (@tracker_is_an_unstated_precondition Sample.ext Sample.io Sample.env))))
    Sample.about_Z None None None 5%positive Sample.fresh_base
    (Sample.script true [] 0) _).
  reflexivity.
Defined.

(** On an object the base-class constructor built, [outlierRejectionMono]
    with a null [status_pose_mono] does not dereference [tracker_]: its
    CHECK stops it first. *)
Lemma null_status_pose_on_base_object_is_no_dereference :
  ~ (forall status_pose_mono : option Addr,
        outcome
          (@run Sample.ext Sample.io Sample.env _
             (this <- VisionFrontEnd_constructor tt 0 None false ;;
              outlierRejectionMono Sample.about_Z None None status_pose_mono
                None this)
             (Sample.script true [] 0))
        = Stopped (NullDereference "tracker_")).
Proof.
  intros H. specialize (H None). vm_compute in H. discriminate H.
Qed.

Lemma constructor_starts_in_bootstrap_witness :
  exists b : bool,
    @run Sample.ext Sample.io Sample.env _ (isInitialized Sample.fresh_derived)
      (Sample.script true [] 0)
    = {| trace := [];
         outcome := Returned (b, Sample.fresh_derived);
         world_after := Sample.script true [] 0 |}
    /\ (b = true <-> frontend_state_ Sample.fresh_derived <> Bootstrap).
Proof.
  exact (proj2
    (@constructor_starts_in_bootstrap Sample.ext Sample.io Sample.env
       tt 0 None false (Sample.script true [] 0))
    Sample.fresh_derived (Sample.script true [] 0)).
Defined.

Lemma updateAndResetImuBias_two_calls_witness :
  trace (@run Sample.ext Sample.io Sample.env _
           (updateAndResetImuBias 7 Sample.fresh_base) (Sample.script true [] 0))
  = [Called (ImuFrontEnd_updateBias 10%positive 7) tt;
     Called (ImuFrontEnd_resetIntegrationWithCachedBias 10%positive) tt].
Proof.
  exact (proj1
    (@updateAndResetImuBias_two_calls Sample.ext Sample.io Sample.env
       7 Sample.fresh_base 10%positive (Sample.script true [] 0) eq_refl)).
Defined.

Lemma spinOnce_dispatches_on_state_witness :
  @spinOnce Sample.ext Sample.io modelled_handlers 100 Sample.fresh_derived
  = modelled_bootstrapSpin 100 Sample.fresh_derived.
Proof.
  exact (proj1
    (@spinOnce_dispatches_on_state Sample.ext Sample.io Sample.env
       modelled_handlers 100 Sample.fresh_derived) eq_refl).
Defined.

Lemma lifecycle_never_returns_to_bootstrap_witness :
  match outcome (run (session tt 0 None false [100; 200; 300; 400; 500])
                   (script true [] 2)) with
  | Returned (this, later) =>
      bootstrap_then_nominal (lifecycle this later) = true
  | Stopped _ => False
  end.
Proof.
  destruct (outcome (@run Sample.ext Sample.io Sample.env _
                       (@session Sample.ext Sample.io tt 0 None false
                          [100; 200; 300; 400; 500])
                       (script true [] 2)))
    as [[this later] | s] eqn:E.
  - exact (proj1 (proj2 (proj2 (proj1
      (@lifecycle_never_returns_to_bootstrap Sample.ext Sample.io Sample.env)
      tt 0 None false [100; 200; 300; 400; 500] (script true [] 2))
      this later E))).
  - vm_compute in E. discriminate E.
Defined.

Lemma frame_count_counts_calls_witness :
  match outcome (run (session tt 0 None false [100; 200; 300; 400; 500])
                   (script true [] 2)) with
  | Returned (this, later) => frame_count_ (last later this) = 5
  | Stopped _ => False
  end.
Proof.
  destruct (outcome (@run Sample.ext Sample.io Sample.env _
                       (@session Sample.ext Sample.io tt 0 None false
                          [100; 200; 300; 400; 500])
                       (script true [] 2)))
    as [[this later] | s] eqn:E.
  - exact (proj1 (proj2
      (@frame_count_counts_calls Sample.ext Sample.io Sample.env
         tt 0 None false [100; 200; 300; 400; 500] (script true [] 2))
      this later E)).
  - vm_compute in E. discriminate E.
Defined.

(** A VALID result followed by a non-VALID one: the status is the second,
    the pose still the first. *)
Example stale_pose_is_kept :
  match outcome (run (performAll mixed_calls fresh_derived)
                   (script true [(Status_VALID, moved_pose);
                                 (Status_FEW_MATCHES, identity_pose)] 0)) with
  | Returned this' =>
      (kfTrackingStatus_mono_ (tracker_status_summary_ this'),
       lkf_T_k_mono_ (tracker_status_summary_ this'))
      = (Status_FEW_MATCHES, moved_pose)
  | Stopped _ => False
  end.
Proof. vm_compute. reflexivity. Qed.

(** The IMU accessors work on an object that has no tracker yet; the first
    call that needs one stops the sequence. *)
Example relays_need_no_tracker :
  outcome (run (performAll relays fresh_base) (script true [] 0))
  = Returned fresh_base
  /\ outcome (run (performAll (relays ++ [op_getTrackerInfo]) fresh_base)
                (script true [] 0))
     = Stopped (NullDereference "tracker_").
Proof. split; vm_compute; reflexivity. Qed.




(** At verbosity 2 the line is logged. *)
Example verbose_run_logs_the_status :
  log_messages
    (trace (run (outlierRejectionMono about_Z None None (Some 5%positive) None
                   fresh_derived)
              (verbose_script [(Status_VALID, moved_pose)])))
  = ["Status mono: VALID"].
Proof. vm_compute. reflexivity. Qed.

Lemma outlierRejectionMono_forwards_its_arguments_witness :
  exists (t : Addr) (flag : bool),
    tracker_ fresh_derived = Some t
    /\ In (Called (kernel_call (selected_kernel flag about_Z) t
                     (Some 2%positive) (Some 3%positive) about_Z None)
             (Status_VALID, moved_pose))
          (trace (run (outlierRejectionMono about_Z (Some 2%positive)
                         (Some 3%positive) (Some 5%positive) None
                         fresh_derived)
                    (script true [(Status_VALID, moved_pose)] 0))).
Proof.
  destruct
    (@outlierRejectionMono_forwards_its_arguments Sample.ext Sample.io
       Sample.env about_Z (Some 2%positive) (Some 3%positive)
       (Some 5%positive) None fresh_derived
       (script true [(Status_VALID, moved_pose)] 0)
       (Status_VALID, moved_pose)
       (@assign_lkf_T_k_mono_ Sample.ext moved_pose
          (@assign_kfTrackingStatus_mono_ Sample.ext Status_VALID
             fresh_derived))
       eq_refl) as (t & flag & Ht & _ & Hin & _).
  exists t, flag. split; [exact Ht | exact Hin].
Defined.

Lemma accessors_relay_one_call_witness :
  exists b : Z,
    trace (run (getCurrentImuBias fresh_base) (script true [] 0))
    = [Called (ImuFrontEnd_getCurrentImuBias 10%positive) b]
    /\ outcome (run (getCurrentImuBias fresh_base) (script true [] 0))
       = Returned (b, fresh_base).
Proof.
  exact (proj1 (proj2 (proj1
    (@accessors_relay_one_call Sample.ext Sample.io Sample.env
       fresh_base (script true [] 0)) 10%positive eq_refl))).
Defined.

End Scenarios.

End VIO.
